(** * modify_gitops.py: pausing and resuming ArgoCD image updates

    A shallow embedding of [lessons/200/k8s-private-repo/modify_gitops.py]
    and the properties of its manifest edit and of its batch workflow.

    The script talks to two external libraries.  PyGithub is kept abstract
    (class [GithubApi]): every call is a function of the remote state that
    may raise.  PyYAML is split in the part the properties depend on, the
    representer that orders mapping keys ([represent]), and the parser and
    emitter, which are kept abstract (class [YamlCodec]). *)

From Stdlib Require Import ZArith String Ascii Lia.
From stdpp Require Import base list strings pretty gmap.

Set Warnings "-register-all".

Local Open Scope string_scope.
Local Open Scope list_scope.

(** ** Python values

    What [yaml.safe_load] builds for a manifest: scalars, lists and
    insertion-ordered dicts whose keys are hashable scalars.  Floats, dates
    and binary scalars are left out.  Values are trees: a document with YAML
    aliases, where one dict object is reachable along two paths, is outside
    this model; module [Aliased] below has the documents with shared
    objects. *)

Inductive pykey : Type :=
| KNone
| KBool (b : bool)
| KInt (n : Z)
| KStr (s : string).

Inductive pyval : Type :=
| VNone
| VBool (b : bool)
| VInt (n : Z)
| VStr (s : string)
| VList (xs : list pyval)
| VDict (items : list (pykey * pyval)).

Abbreviation pydict := (list (pykey * pyval)).

(** Exceptions, by class, with the argument they carry: the missing key
    of a [KeyError], the message of the others (for a [GithubException],
    the text that [{e}] puts in the log). *)
Inductive exn_class : Type :=
| KeyError
| TypeError
| AttributeError
| AssertionError
| NameError
| YAMLError
| UnicodeDecodeError
| GithubException.

Record exn : Type := Exn { exn_kind : exn_class; exn_str : string }.

(** [LookupError] is the base class of [KeyError] (and of [IndexError],
    which this program cannot raise). *)
Definition is_LookupError (e : exn) : bool :=
  match exn_kind e with KeyError => true | _ => false end.

Inductive result (A : Type) : Type :=
| Ok (a : A)
| Raise (e : exn).
Arguments Ok {A} a.
Arguments Raise {A} e.

#[global] Instance result_ret : MRet result := fun A a => Ok a.

#[global] Instance result_bind : MBind result := fun A B f r =>
  match r with Ok a => f a | Raise e => Raise e end.

(** ** Dicts *)

(** Python identifies [True] with [1] and [False] with [0] as dict keys. *)
Definition key_num (k : pykey) : option Z :=
  match k with
  | KBool b => Some (Z.b2z b)
  | KInt n => Some n
  | _ => None
  end.

Definition key_eqb (a b : pykey) : bool :=
  match a, b with
  | KNone, KNone => true
  | KStr x, KStr y => String.eqb x y
  | _, _ =>
      match key_num a, key_num b with
      | Some x, Some y => Z.eqb x y
      | _, _ => false
      end
  end.

Fixpoint dict_get (k : pykey) (d : pydict) : option pyval :=
  match d with
  | [] => None
  | (k', v) :: d' => if key_eqb k k' then Some v else dict_get k d'
  end.

(** [d[k] = v]: an existing entry keeps its place (and its key object), a
    new one goes last. *)
Fixpoint dict_setitem (k : pykey) (v : pyval) (d : pydict) : pydict :=
  match d with
  | [] => [(k, v)]
  | (k', v') :: d' =>
      if key_eqb k k' then (k', v) :: d' else (k', v') :: dict_setitem k v d'
  end.

(** [d.pop(k, None)], the dict that is left.  A dict holds a key at most
    once, so dropping every entry under [k] drops the entry under [k]. *)
Definition dict_pop (k : pykey) (d : pydict) : pydict :=
  filter (fun kv => key_eqb k kv.1 = false) d.

Definition dict_keys (d : pydict) : list pykey := map fst d.

(** ** Subscripts, as lines 60 and 62 use them *)

(** [type(v).__name__] *)
Definition type_name (v : pyval) : string :=
  match v with
  | VNone => "NoneType"
  | VBool _ => "bool"
  | VInt _ => "int"
  | VStr _ => "str"
  | VList _ => "list"
  | VDict _ => "dict"
  end.

(** [v[name]] for a string [name]. *)
Definition py_getitem (v : pyval) (name : string) : result pyval :=
  match v with
  | VDict d =>
      match dict_get (KStr name) d with
      | Some x => Ok x
      | None => Raise (Exn KeyError name)
      end
  | VList _ => Raise (Exn TypeError "list indices must be integers or slices, not str")
  | VStr _ => Raise (Exn TypeError "string indices must be integers, not 'str'")
  | _ => Raise (Exn TypeError ("'" +:+ type_name v +:+ "' object is not subscriptable"))
  end.

(** [v[name] = x] for a string [name]: the value [v] has become. *)
Definition py_setitem (v : pyval) (name : string) (x : pyval) : result pyval :=
  match v with
  | VDict d => Ok (VDict (dict_setitem (KStr name) x d))
  | VList _ => Raise (Exn TypeError "list indices must be integers or slices, not str")
  | _ => Raise (Exn TypeError ("'" +:+ type_name v
                              +:+ "' object does not support item assignment"))
  end.

(** [v.pop(k, None)]: the value [v] has become. *)
Definition py_pop_default (v : pyval) (k : pykey) : result pyval :=
  match v with
  | VDict d => Ok (VDict (dict_pop k d))
  | VList _ => Raise (Exn TypeError "pop expected at most 1 argument, got 2")
  | _ => Raise (Exn AttributeError ("'" +:+ type_name v
                                   +:+ "' object has no attribute 'pop'"))
  end.

(** The key argument of [modify_application]: [None] by default. *)
Definition key_of_arg (annotation_key : option string) : pykey :=
  match annotation_key with
  | Some k => KStr k
  | None => KNone
  end.

(** [if annotation_key:] a string is true unless it is empty, [None] is
    false. *)
Definition truthy (annotation_key : option string) : bool :=
  match annotation_key with
  | Some k => negb (String.eqb k "")
  | None => false
  end.

(** Lines 59-62 of [modify_application], on a document without aliases.
    [app['metadata']['annotations']] is the dict object inside [app]: the
    assignment and the pop change it in place, so [app] is afterwards the
    same document with that one dict changed.  Here the changed dict is
    stored back where it was read, the one place that holds it when no
    alias shares it; [Aliased.mutate_annotations] changes the object
    itself. *)
Definition mutate_annotations (app : pyval) (annotation_key : option string)
  : result pyval :=
  md ← py_getitem app "metadata";
  ann ← py_getitem md "annotations";
  ann' ← (if truthy annotation_key
          then py_setitem ann (default "" annotation_key) (VStr "*")
          else py_pop_default ann (key_of_arg annotation_key));
  md' ← py_setitem md "annotations" ann';
  py_setitem app "metadata" md'.

(** ** Paths into a document *)

Inductive step : Type :=
| SKey (k : pykey)
| SIdx (i : nat).

Fixpoint lookup_path (p : list step) (v : pyval) : option pyval :=
  match p with
  | [] => Some v
  | SKey k :: p' =>
      match v with
      | VDict d =>
          match dict_get k d with
          | Some x => lookup_path p' x
          | None => None
          end
      | _ => None
      end
  | SIdx i :: p' =>
      match v with
      | VList xs =>
          match xs !! i with
          | Some x => lookup_path p' x
          | None => None
          end
      | _ => None
      end
  end.

Definition step_eqb (a b : step) : bool :=
  match a, b with
  | SKey x, SKey y => key_eqb x y
  | SIdx i, SIdx j => Nat.eqb i j
  | _, _ => false
  end.

(** [is_prefix p q]: the path [q] passes through the place [p] names. *)
Fixpoint is_prefix (p q : list step) : bool :=
  match p, q with
  | [], _ => true
  | _ :: _, [] => false
  | a :: p', b :: q' => step_eqb a b && is_prefix p' q'
  end.

Definition annotations_path : list step :=
  [SKey (KStr "metadata"); SKey (KStr "annotations")].

Definition annotation_path (k : pykey) : list step :=
  annotations_path ++ [SKey k].

(** ** [yaml.dump]: the order of mapping keys

    [yaml.dump(app, default_flow_style=False, explicit_start=True)] leaves
    [sort_keys] at its default, [True]: the representer sorts the items of
    every mapping, and keeps their order when the keys cannot be compared
    with each other ([sorted] raises [TypeError], which it swallows).  Keys
    can be compared when they are all strings or all numbers. *)

Definition key_is_str (k : pykey) : bool :=
  match k with KStr _ => true | _ => false end.

Definition key_is_num (k : pykey) : bool :=
  match k with KBool _ | KInt _ => true | _ => false end.

Definition key_leb (a b : pykey) : bool :=
  match a, b with
  | KNone, KNone => true
  | KStr x, KStr y => String.leb x y
  | _, _ =>
      match key_num a, key_num b with
      | Some x, Some y => Z.leb x y
      | _, _ => false
      end
  end.

Definition comparable (d : pydict) : bool :=
  forallb (fun kv => key_is_str kv.1) d || forallb (fun kv => key_is_num kv.1) d.

Fixpoint insert_item (x : pykey * pyval) (d : pydict) : pydict :=
  match d with
  | [] => [x]
  | y :: d' => if key_leb x.1 y.1 then x :: y :: d' else y :: insert_item x d'
  end.

Fixpoint sort_by_key (d : pydict) : pydict :=
  match d with
  | [] => []
  | x :: d' => insert_item x (sort_by_key d')
  end.

Definition sort_items (d : pydict) : pydict :=
  if comparable d then sort_by_key d else d.

(** The document in the order it is serialized. *)
Fixpoint represent (v : pyval) : pyval :=
  match v with
  | VList xs => VList (map represent xs)
  | VDict d => VDict (sort_items (map (fun kv => (kv.1, represent kv.2)) d))
  | _ => v
  end.

(** ** Strings *)

Definition ascii_upper (c : ascii) : ascii :=
  let n := nat_of_ascii c in
  if (97 <=? n)%nat && (n <=? 122)%nat then ascii_of_nat (n - 32) else c.

Definition ascii_lower (c : ascii) : ascii :=
  let n := nat_of_ascii c in
  if (65 <=? n)%nat && (n <=? 90)%nat then ascii_of_nat (n + 32) else c.

Fixpoint string_map (f : ascii -> ascii) (s : string) : string :=
  match s with
  | EmptyString => EmptyString
  | String c s' => String (f c) (string_map f s')
  end.

(** [str.capitalize()], on ASCII text. *)
Definition capitalize (s : string) : string :=
  match s with
  | EmptyString => EmptyString
  | String c s' => String (ascii_upper c) (string_map ascii_lower s')
  end.

(** A name between double quotes, as the log messages show it. *)
Definition quoted (s : string) : string :=
  String "034"%char s +:+ String "034"%char EmptyString.

(** How an f-string shows an argument that is a string or [None]. *)
Definition py_str (o : option string) : string := default "None" o.

Record date : Type := Date { year : nat; month : nat; day : nat }.

Fixpoint zero_pad (width : nat) (s : string) : string :=
  match width with
  | O => s
  | S w => if (String.length s <=? w)%nat then zero_pad w ("0" +:+ s) else s
  end.

(** [strftime('%Y-%m-%d')]: the year as it is, month and day on two
    digits. *)
Definition strftime_ymd (d : date) : string :=
  pretty (year d) +:+ "-" +:+ zero_pad 2 (pretty (month d))
    +:+ "-" +:+ zero_pad 2 (pretty (day d)).

(** ** The process and the remote repository *)

(** The [argparse.Namespace] of [options()]: one attribute per flag, [None]
    when the flag was not given. *)
Record Namespace : Type := {
  source_env : option string;
  target_env : option string;
  action : option string;
}.

Definition ns_getattr (args : Namespace) (name : string) : result (option string) :=
  if String.eqb name "source_env" then Ok (source_env args)
  else if String.eqb name "target_env" then Ok (target_env args)
  else if String.eqb name "action" then Ok (action args)
  else Raise (Exn AttributeError
                ("'Namespace' object has no attribute '" +:+ name +:+ "'")).

(** The name [env] in [main]: the function binds no such local and the
    module no such global. *)
Definition name_env : result (option string) :=
  Raise (Exn NameError "name 'env' is not defined").

(** [a - b] where each is a string or [None]. *)
Definition py_sub (a b : option string) : result (option string) :=
  Raise (Exn TypeError "unsupported operand type(s) for -").

Record process : Type := {
  environ : gmap string string;
  argv : Namespace;
  clock : date;
}.

Record Repository : Type := {
  full_name : string;
  default_branch : string;
}.

Record ContentFile : Type := {
  cf_name : string;
  cf_path : string;
  cf_sha : string;
  cf_decoded_content : string;
}.

(** [Repository.get_contents] gives one file, or the entries of a
    directory. *)
Inductive Contents : Type :=
| File (f : ContentFile)
| Dir (entries : list ContentFile).

(** The calls that reach the hosting service. *)
Inductive call : Type :=
| CGetRepo (name : string)
| CGetBranch (branch : string)
| CCreateGitRef (ref sha : string)
| CGetContents (path : string) (ref : option string)
| CUpdateFile (path message content sha branch : string)
| CCreatePull (base head title : string).

(** PyGithub over a remote state [W]: each call answers or raises, and
    leaves a remote state. *)
Class GithubApi (W : Type) : Type := {
  gh_get_repo : string -> string -> W -> result Repository * W;
  gh_get_branch : Repository -> string -> W -> result string * W;
  gh_create_git_ref : Repository -> string -> string -> W -> result unit * W;
  gh_get_contents : Repository -> string -> option string -> W -> result Contents * W;
  gh_update_file :
    Repository -> string -> string -> string -> string -> string -> W -> result unit * W;
  gh_create_pull : Repository -> string -> string -> string -> W -> result unit * W;
}.

(** The parser and the emitter of PyYAML, and [bytes.decode]. *)
Class YamlCodec : Type := {
  bytes_decode : string -> result string;
  yaml_safe_load : string -> result pyval;
  yaml_emit : pyval -> string;
}.

Definition yaml_dump {yaml : YamlCodec} (v : pyval) : string := yaml_emit (represent v).

Inductive level : Type := INFO | ERROR.

Record state (W : Type) : Type := State {
  world : W;
  calls : list call;
  log : list (level * string);
}.
Arguments State {W} _ _ _.
Arguments world {W} _.
Arguments calls {W} _.
Arguments log {W} _.

(** Computations that change the state and may raise; the state a raise
    leaves is kept. *)
Definition M (W A : Type) : Type := state W -> result A * state W.

#[global] Instance M_ret {W} : MRet (M W) := fun A a st => (Ok a, st).

#[global] Instance M_bind {W} : MBind (M W) := fun A B f m st =>
  match m st with
  | (Ok a, st') => f a st'
  | (Raise e, st') => (Raise e, st')
  end.

Definition lift {W A} (r : result A) : M W A := fun st => (r, st).

Definition logging {W} (l : level) (msg : string) : M W unit :=
  fun st => (Ok tt, State (world st) (calls st) (log st ++ [(l, msg)])).

(** A call to the service: recorded, then answered from the remote state. *)
Definition request {W A} (c : call) (f : W -> result A * W) : M W A :=
  fun st =>
    let (r, w) := f (world st) in
    (r, State w (calls st ++ [c]) (log st)).

(** [try: body  except GithubException as e: logging.error(msg e); raise] *)
Definition try_github {W A} (body : M W A) (msg : exn -> string) : M W A :=
  fun st =>
    match body st with
    | (Raise e, st') =>
        match exn_kind e with
        | GithubException => (logging ERROR (msg e) ;; lift (Raise e)) st'
        | _ => (Raise e, st')
        end
    | r => r
    end.

Fixpoint for_each {W A} (l : list A) (body : A -> M W unit) : M W unit :=
  match l with
  | [] => mret tt
  | x :: l' => body x ;; for_each l' body
  end.

(** [for svc in services]: a directory listing is a list; a single
    [ContentFile] is not iterable. *)
Definition py_iter (c : Contents) : result (list ContentFile) :=
  match c with
  | Dir entries => Ok entries
  | File _ => Raise (Exn TypeError "'ContentFile' object is not iterable")
  end.

(** [contents.decoded_content], [contents.path], [contents.sha]: a list has
    no such attributes. *)
Definition as_file (c : Contents) : result ContentFile :=
  match c with
  | File f => Ok f
  | Dir _ => Raise (Exn AttributeError "'list' object has no attribute 'decoded_content'")
  end.

(** ** The script *)

Section Script.
Context {W : Type} {github : GithubApi W} {yaml : YamlCodec}.

Definition update_repo_file (repo : Repository)
    (file_path message content branch sha : string) : M W unit :=
  try_github
    (request (CUpdateFile file_path message content sha branch)
       (gh_update_file repo file_path message content sha branch) ;;
     logging INFO ("Successfully updated " +:+ quoted file_path +:+ " in branch "
                     +:+ quoted branch +:+ "."))
    (fun e => "Failed to update file " +:+ quoted file_path +:+ ": " +:+ exn_str e).

Definition create_branch (repo : Repository) (branch : string) : M W unit :=
  try_github
    (sha ← request (CGetBranch (default_branch repo))
             (gh_get_branch repo (default_branch repo));
     request (CCreateGitRef ("refs/heads/" +:+ branch) sha)
       (gh_create_git_ref repo ("refs/heads/" +:+ branch) sha) ;;
     logging INFO ("Successfully created branch " +:+ quoted branch +:+ "."))
    (fun e => "Failed to create branch " +:+ quoted branch +:+ ": " +:+ exn_str e).

Definition create_pr (repo : Repository) (branch title : string) : M W unit :=
  try_github
    (request (CCreatePull (default_branch repo) branch title)
       (gh_create_pull repo (default_branch repo) branch title) ;;
     logging INFO ("Successfully created Pull Request " +:+ quoted title
                     +:+ " from branch " +:+ quoted branch +:+ "."))
    (fun e => "Failed to create Pull Request: " +:+ exn_str e).

(** [os.environ['GITHUB_TOKEN']] *)
Definition environ_getitem (env : gmap string string) (name : string)
  : result string :=
  match env !! name with
  | Some v => Ok v
  | None => Raise (Exn KeyError name)
  end.

(** [Auth.Token(token)]: the constructor asserts that the token is not
    empty; it sends nothing. *)
Definition auth_token (token : string) : result string :=
  if String.eqb token EmptyString then Raise (Exn AssertionError EmptyString)
  else Ok token.

Definition get_repo (env : gmap string string) (name : string) : M W Repository :=
  try_github
    (github_token ← lift (environ_getitem env "GITHUB_TOKEN");
     auth ← lift (auth_token github_token);
     request (CGetRepo name) (gh_get_repo auth name))
    (fun e => "Failed to retrieve repository " +:+ quoted name +:+ ": " +:+ exn_str e).

Definition manifest_path (env service : string) : string :=
  "envs/" +:+ env +:+ "/" +:+ service +:+ "/application.yaml".

Definition commit_message (env service : string) : string :=
  "Modify " +:+ service +:+ " in " +:+ env +:+ ".".

(** Lines 57-64 of [modify_application]: from the bytes of the manifest
    to the text that is written back. *)
Definition edit_manifest (decoded_content : string)
    (annotation_key : option string) : result string :=
  text ← bytes_decode decoded_content;
  app ← yaml_safe_load text;
  app' ← mutate_annotations app annotation_key;
  mret (yaml_dump app').

Definition modify_application (repo : Repository) (env service branch : string)
    (annotation_key : option string) : M W unit :=
  let file_path := manifest_path env service in
  contents ← request (CGetContents file_path (Some (default_branch repo)))
               (gh_get_contents repo file_path (Some (default_branch repo)));
  file ← lift (as_file contents);
  app_yaml ← lift (edit_manifest (cf_decoded_content file) annotation_key);
  update_repo_file repo (cf_path file) (commit_message env service) app_yaml
    branch (cf_sha file).

Definition ignore_tags_key (service : string) : string :=
  "argocd-image-updater.argoproj.io/" +:+ service +:+ ".ignore-tags".

(** The body of the loop of [handle_services].  On the [resume] path the
    key is computed (line 74) and the call of line 75 does not pass it. *)
Definition handle_service (repo : Repository) (env branch action : string)
    (svc : ContentFile) : M W unit :=
  if String.eqb action "pause" then
    let annotation_key := ignore_tags_key (cf_name svc) in
    modify_application repo env (cf_name svc) branch (Some annotation_key)
  else if String.eqb action "resume" then
    let annotation_key := ignore_tags_key (cf_name svc) in
    modify_application repo env (cf_name svc) branch None
  else mret tt.

Definition handle_services (repo : Repository) (env : string)
    (services : Contents) (branch action : string) : M W unit :=
  entries ← lift (py_iter services);
  for_each entries (handle_service repo env branch action).

(** Line 91: [f'{args.action}-{args.target-env}-{today}'].  The middle
    field is the difference [args.target - env]. *)
Definition branch_name_of (args : Namespace) (today : string) : result string :=
  a ← ns_getattr args "action";
  t ← ns_getattr args "target";
  e ← name_env;
  d ← py_sub t e;
  mret (py_str a +:+ "-" +:+ py_str d +:+ "-" +:+ today).

(** Lines 93-102 of [main], once [repository] and [branch_name] are
    bound. *)
Definition main_actions (repository : Repository) (args : Namespace)
    (branch_name : string) : M W unit :=
  create_branch repository branch_name ;;
  if bool_decide (action args = Some "pause")
     || bool_decide (action args = Some "resume") then
    services ← request (CGetContents ("envs/" +:+ py_str (target_env args)) None)
                 (gh_get_contents repository
                    ("envs/" +:+ py_str (target_env args)) None);
    handle_services repository (py_str (target_env args)) services branch_name
      (py_str (action args)) ;;
    create_pr repository branch_name
      (capitalize (py_str (action args)) +:+ " the "
         +:+ py_str (target_env args) +:+ " environment.")
  else if bool_decide (action args = Some "push") then
    logging INFO "Push logic will be handled here (same as previous implementation)."
  else mret tt.

Definition main (p : process) : M W unit :=
  let args := argv p in
  let today := strftime_ymd (clock p) in
  repository ← get_repo (environ p) "antonputra/k8s";
  branch_name ← lift (branch_name_of args today);
  main_actions repository args branch_name.

End Script.

(** ** A test double

    An in-memory hosting service and a toy codec, to run the script on
    concrete repositories. *)

Module Fake.

Record remote : Type := Remote {
  tree : list (string * Contents);
  refs : list (string * string);
  commits : list (string * string * string);
  pulls : list (string * string * string);
  stale : list string;
}.

Fixpoint assoc {A} (k : string) (l : list (string * A)) : option A :=
  match l with
  | [] => None
  | (k', a) :: l' => if String.eqb k k' then Some a else assoc k l'
  end.

Definition not_found : exn := Exn GithubException "404 Not Found".
Definition conflict : exn := Exn GithubException "409 Conflict".
Definition exists_already : exn := Exn GithubException "422 Reference already exists".

Definition k8s : Repository :=
  {| full_name := "antonputra/k8s"; default_branch := "main" |}.

#[global] Instance api : GithubApi remote := {
  gh_get_repo _ name w :=
    (if String.eqb name (full_name k8s) then Ok k8s else Raise not_found, w);
  gh_get_branch _ branch w :=
    (match assoc ("refs/heads/" +:+ branch) (refs w) with
     | Some sha => Ok sha
     | None => Raise not_found
     end, w);
  gh_create_git_ref _ ref sha w :=
    match assoc ref (refs w) with
    | Some _ => (Raise exists_already, w)
    | None =>
        (Ok tt, Remote (tree w) (refs w ++ [(ref, sha)]) (commits w) (pulls w) (stale w))
    end;
  gh_get_contents _ path _ w :=
    (match assoc path (tree w) with
     | Some c => Ok c
     | None => Raise not_found
     end, w);
  gh_update_file _ path _ content _ branch w :=
    if existsb (String.eqb path) (stale w) then (Raise conflict, w)
    else
      (Ok tt, Remote (tree w) (refs w) (commits w ++ [(branch, path, content)])
                (pulls w) (stale w));
  gh_create_pull _ base head title w :=
    (Ok tt, Remote (tree w) (refs w) (commits w) (pulls w ++ [(base, head, title)])
              (stale w));
}.

Definition show_key (k : pykey) : string :=
  match k with
  | KNone => "null"
  | KBool b => if b then "true" else "false"
  | KInt n => pretty n
  | KStr s => "'" +:+ s +:+ "'"
  end.

Fixpoint join (l : list string) : string :=
  match l with
  | [] => EmptyString
  | [s] => s
  | s :: l' => s +:+ ", " +:+ join l'
  end.

(** The document on one line, in flow style. *)
Fixpoint show (v : pyval) : string :=
  match v with
  | VNone => "null"
  | VBool b => if b then "true" else "false"
  | VInt n => pretty n
  | VStr s => "'" +:+ s +:+ "'"
  | VList xs => "[" +:+ join (map show xs) +:+ "]"
  | VDict d => "{" +:+ join (map (fun kv => show_key kv.1 +:+ ": " +:+ show kv.2) d) +:+ "}"
  end.

(** A parser that knows the documents of [corpus]: it answers the one
    whose text it is given. *)
Definition parse (corpus : list pyval) (text : string) : result pyval :=
  match find (fun v => String.eqb (show v) text) corpus with
  | Some v => Ok v
  | None => Raise (Exn YAMLError "could not parse")
  end.

Definition codec (corpus : list pyval) : YamlCodec := {|
  bytes_decode := Ok;
  yaml_safe_load := parse corpus;
  yaml_emit := show;
|}.

Definition manifest (annotations : pydict) : pyval :=
  VDict [(KStr "apiVersion", VStr "argoproj.io/v1alpha1");
         (KStr "kind", VStr "Application");
         (KStr "metadata",
          VDict [(KStr "name", VStr "checkout");
                 (KStr "annotations", VDict annotations)]);
         (KStr "spec", VDict [(KStr "project", VStr "default")])].

Definition file_of (env service : string) (v : pyval) : ContentFile :=
  {| cf_name := "application.yaml";
     cf_path := manifest_path env service;
     cf_sha := "sha-" +:+ service;
     cf_decoded_content := show v |}.

Definition entry (env service : string) : ContentFile :=
  {| cf_name := service;
     cf_path := "envs/" +:+ env +:+ "/" +:+ service;
     cf_sha := "tree-" +:+ service;
     cf_decoded_content := EmptyString |}.

(** A repository with the environment [staging] and its services, each
    with the manifest given for it. *)
Definition repository_of (services : list (string * pyval)) (stale : list string)
  : remote :=
  {| tree :=
       ("envs/staging", Dir (map (fun sv => entry "staging" sv.1) services))
       :: map (fun sv => (manifest_path "staging" sv.1,
                          File (file_of "staging" sv.1 sv.2))) services;
     refs := [("refs/heads/main", "c0ffee")];
     commits := [];
     pulls := [];
     stale := stale |}.

Definition start (w : remote) : state remote := State w [] [].

Definition token : gmap string string := {["GITHUB_TOKEN" := "ghp_secret"]}.

Definition cli (act env : string) : Namespace :=
  {| source_env := None; target_env := Some env; action := Some act |}.

End Fake.

(** Documents and repositories the properties are tried on. *)
Module Sample.

Definition ignore_checkout : pykey := KStr (ignore_tags_key "checkout").

(** Annotations that are not in key order, no pause. *)
Definition unpaused : pyval :=
  Fake.manifest [(KStr "owner", VStr "shop"); (KStr "contact", VStr "ops")].

Definition paused : pyval :=
  Fake.manifest [(KStr "owner", VStr "shop"); (ignore_checkout, VStr "*");
                 (KStr "contact", VStr "ops")].

(** [~: x] among the annotations. *)
Definition null_keyed : pyval :=
  Fake.manifest [(KNone, VStr "x"); (KStr "owner", VStr "shop")].

Definition no_annotations : pyval :=
  VDict [(KStr "kind", VStr "Application");
         (KStr "metadata", VDict [(KStr "name", VStr "checkout")])].

Definition no_metadata : pyval := VDict [(KStr "kind", VStr "Application")].

Definition corpus : list pyval :=
  [unpaused; paused; null_keyed; no_annotations; no_metadata; represent paused].

Definition yaml : YamlCodec := Fake.codec corpus.

Definition branch : string := "pause-staging-2024-01-01".

(** Services [a] and [b] of [staging]; the update of [b] is refused. *)
Definition a_and_b : Fake.remote :=
  Fake.repository_of [("a", unpaused); ("b", unpaused)]
    [manifest_path "staging" "b"].

Definition checkout_only (doc : pyval) : Fake.remote :=
  Fake.repository_of [("checkout", doc)] [].

Definition new_year : date := Date 2024 1 1.

End Sample.

(** ** Notions the properties are stated with *)

(** The keys that Python takes for one: [True] is [1], [False] is [0]. *)
Definition key_norm (k : pykey) : pykey :=
  match k with
  | KBool b => KInt (Z.b2z b)
  | _ => k
  end.

(** The keys of the dict at the end of a path, in their order. *)
Definition keys_at (p : list step) (v : pyval) : option (list pykey) :=
  match lookup_path p v with
  | Some (VDict d) => Some (dict_keys d)
  | _ => None
  end.

Fixpoint is_sorted (d : pydict) : bool :=
  match d with
  | [] => true
  | x :: d' =>
      match d' with
      | [] => true
      | y :: _ => key_leb x.1 y.1 && is_sorted d'
      end
  end.

(** The document has no [metadata], or its [metadata] has no
    [annotations]. *)
Definition lacks_annotations (app : pyval) : Prop :=
  ∃ root, app = VDict root ∧
    (dict_get (KStr "metadata") root = None ∨
     ∃ md, dict_get (KStr "metadata") root = Some (VDict md) ∧
           dict_get (KStr "annotations") md = None).

Definition read_paths (cs : list call) : list string :=
  omap (fun c => match c with CGetContents p (Some _) => Some p | _ => None end) cs.

Definition update_messages (cs : list call) : list string :=
  omap (fun c => match c with CUpdateFile _ m _ _ _ => Some m | _ => None end) cs.

Definition pull_titles (cs : list call) : list string :=
  omap (fun c => match c with CCreatePull _ _ t => Some t | _ => None end) cs.

Definition created_refs (cs : list call) : list string :=
  omap (fun c => match c with CCreateGitRef r _ => Some r | _ => None end) cs.

(** ** Further notions and documents *)

(** The record that [except GithubException as e: logging.error(...)]
    leaves for an outcome: one for a [GithubException], none otherwise. *)
Definition error_records {A} (msg : exn -> string) (r : result A)
  : list (level * string) :=
  match r with
  | Ok _ => []
  | Raise e =>
      match exn_kind e with
      | GithubException => [(ERROR, msg e)]
      | _ => []
      end
  end.

(** The record that a wrapper leaves when its call went well. *)
Definition info_records {A} (msg : string) (r : result A) : list (level * string) :=
  match r with
  | Ok _ => [(INFO, msg)]
  | Raise _ => []
  end.

(** Manifests off the usual shape, and a codec that knows them. *)
Module Odd.

Definition null_annotations : pyval :=
  VDict [(KStr "kind", VStr "Application");
         (KStr "metadata",
          VDict [(KStr "name", VStr "checkout"); (KStr "annotations", VNone)])].

(** What an empty file parses to. *)
Definition empty_file : pyval := VNone.

(** Two services paused in one manifest. *)
Definition two_paused : pyval :=
  Fake.manifest [(KStr (ignore_tags_key "cart"), VStr "*");
                 (KStr (ignore_tags_key "checkout"), VStr "v1")].

Definition corpus : list pyval :=
  [null_annotations; empty_file; two_paused; Sample.unpaused].

Definition yaml : YamlCodec := Fake.codec corpus.

(** A repository whose [staging] has no service. *)
Definition no_service : Fake.remote := Fake.repository_of [] [].

(** Services [a] and [b] of [staging], nothing refused. *)
Definition a_and_b : Fake.remote :=
  Fake.repository_of [("a", Sample.unpaused); ("b", Sample.unpaused)] [].

End Odd.

(** ** Documents with shared objects

    [yaml.safe_load] builds one Python object for an anchored node and
    hands the same object to each of its aliases, and lines 60 and 62
    change a dict in place.  Here a document is a store of objects (the
    dicts and lists, each under its identity) and a root value; an alias
    shows as a second reference to one identity.  Lines 55-72 are embedded
    once more over such documents. *)

Module Aliased.

Inductive value : Type :=
| RNone
| RBool (b : bool)
| RInt (n : Z)
| RStr (s : string)
| RObj (id : nat).

Inductive object : Type :=
| OList (xs : list value)
| ODict (items : list (pykey * value)).

Record document : Type := Document {
  objects : gmap nat object;
  root : value;
}.

Fixpoint entries_get (k : pykey) (d : list (pykey * value)) : option value :=
  match d with
  | [] => None
  | (k', v) :: d' => if key_eqb k k' then Some v else entries_get k d'
  end.

(** [d[k] = v] on the entries of a dict: an existing entry keeps its place
    and its key object, a new one goes last. *)
Fixpoint entries_set (k : pykey) (v : value) (d : list (pykey * value))
  : list (pykey * value) :=
  match d with
  | [] => [(k, v)]
  | (k', v') :: d' =>
      if key_eqb k k' then (k', v) :: d' else (k', v') :: entries_set k v d'
  end.

(** [d.pop(k, None)] on the entries of a dict, which hold a key at most
    once. *)
Definition entries_pop (k : pykey) (d : list (pykey * value))
  : list (pykey * value) :=
  filter (fun kv => key_eqb k kv.1 = false) d.

Definition value_type_name (h : gmap nat object) (v : value) : string :=
  match v with
  | RNone => "NoneType"
  | RBool _ => "bool"
  | RInt _ => "int"
  | RStr _ => "str"
  | RObj id =>
      match h !! id with
      | Some (OList _) => "list"
      | _ => "dict"
      end
  end.

(** [v[name]] for a string [name].  A reference always names an object of
    the store in a loaded document. *)
Definition getitem (h : gmap nat object) (v : value) (name : string)
  : result value :=
  match v with
  | RObj id =>
      match h !! id with
      | Some (ODict d) =>
          match entries_get (KStr name) d with
          | Some x => Ok x
          | None => Raise (Exn KeyError name)
          end
      | _ => Raise (Exn TypeError "list indices must be integers or slices, not str")
      end
  | RStr _ => Raise (Exn TypeError "string indices must be integers, not 'str'")
  | _ => Raise (Exn TypeError ("'" +:+ value_type_name h v
                                 +:+ "' object is not subscriptable"))
  end.

(** [v[name] = x]: the store after the assignment.  The dict that [v]
    names is changed where it is. *)
Definition setitem (h : gmap nat object) (v : value) (name : string) (x : value)
  : result (gmap nat object) :=
  match v with
  | RObj id =>
      match h !! id with
      | Some (ODict d) => Ok (<[id := ODict (entries_set (KStr name) x d)]> h)
      | _ => Raise (Exn TypeError "list indices must be integers or slices, not str")
      end
  | _ => Raise (Exn TypeError ("'" +:+ value_type_name h v
                                 +:+ "' object does not support item assignment"))
  end.

(** [v.pop(k, None)]: the store after the call. *)
Definition pop_default (h : gmap nat object) (v : value) (k : pykey)
  : result (gmap nat object) :=
  match v with
  | RObj id =>
      match h !! id with
      | Some (ODict d) => Ok (<[id := ODict (entries_pop k d)]> h)
      | _ => Raise (Exn TypeError "pop expected at most 1 argument, got 2")
      end
  | _ => Raise (Exn AttributeError ("'" +:+ value_type_name h v
                                      +:+ "' object has no attribute 'pop'"))
  end.

(** Lines 59-62 of [modify_application]: [app] is the same object
    afterwards, the dict under [app['metadata']['annotations']] has
    changed. *)
Definition mutate_annotations (app : document) (annotation_key : option string)
  : result document :=
  md ← getitem (objects app) (root app) "metadata";
  ann ← getitem (objects app) md "annotations";
  h ← (if truthy annotation_key
       then setitem (objects app) ann (default EmptyString annotation_key) (RStr "*")
       else pop_default (objects app) ann (key_of_arg annotation_key));
  mret (Document h (root app)).

(** What a path reads, from a value on. *)
Fixpoint walk_from (h : gmap nat object) (p : list step) (v : value)
  : option value :=
  match p with
  | [] => Some v
  | SKey k :: p' =>
      match v with
      | RObj id =>
          match h !! id with
          | Some (ODict d) =>
              match entries_get k d with
              | Some x => walk_from h p' x
              | None => None
              end
          | _ => None
          end
      | _ => None
      end
  | SIdx i :: p' =>
      match v with
      | RObj id =>
          match h !! id with
          | Some (OList xs) =>
              match xs !! i with
              | Some x => walk_from h p' x
              | None => None
              end
          | _ => None
          end
      | _ => None
      end
  end.

Definition walk (app : document) (p : list step) : option value :=
  walk_from (objects app) p (root app).

(** Whether a path, on its way, leaves the object [id] by the key [k]. *)
Fixpoint leaves_by_from (id : nat) (k : pykey) (h : gmap nat object)
    (p : list step) (v : value) : bool :=
  match p with
  | [] => false
  | SKey k' :: p' =>
      match v with
      | RObj id' =>
          match h !! id' with
          | Some (ODict d) =>
              if Nat.eqb id' id && key_eqb k' k then true
              else
                match entries_get k' d with
                | Some x => leaves_by_from id k h p' x
                | None => false
                end
          | _ => false
          end
      | _ => false
      end
  | SIdx i :: p' =>
      match v with
      | RObj id' =>
          match h !! id' with
          | Some (OList xs) =>
              match xs !! i with
              | Some x => leaves_by_from id k h p' x
              | None => false
              end
          | _ => false
          end
      | _ => false
      end
  end.

Definition leaves_by (id : nat) (k : pykey) (app : document) (p : list step) : bool :=
  leaves_by_from id k (objects app) p (root app).

(** PyYAML over documents with shared objects, and [bytes.decode]. *)
Class Codec : Type := {
  bytes_decode : string -> result string;
  yaml_safe_load : string -> result document;
  yaml_dump : document -> string;
}.

Section Script.
Context {W : Type} {github : GithubApi W} {codec : Codec}.

(** Lines 57-64 of [modify_application]. *)
Definition edit_manifest (decoded_content : string)
    (annotation_key : option string) : result string :=
  text ← bytes_decode decoded_content;
  app ← yaml_safe_load text;
  app' ← mutate_annotations app annotation_key;
  mret (yaml_dump app').

Definition modify_application (repo : Repository) (env service branch : string)
    (annotation_key : option string) : M W unit :=
  let file_path := manifest_path env service in
  contents ← request (CGetContents file_path (Some (default_branch repo)))
               (gh_get_contents repo file_path (Some (default_branch repo)));
  file ← lift (as_file contents);
  app_yaml ← lift (edit_manifest (cf_decoded_content file) annotation_key);
  update_repo_file repo (cf_path file) (commit_message env service) app_yaml
    branch (cf_sha file).

(** The body of the loop of [handle_services]. *)
Definition handle_service (repo : Repository) (env branch action : string)
    (svc : ContentFile) : M W unit :=
  if String.eqb action "pause" then
    let annotation_key := ignore_tags_key (cf_name svc) in
    modify_application repo env (cf_name svc) branch (Some annotation_key)
  else if String.eqb action "resume" then
    let annotation_key := ignore_tags_key (cf_name svc) in
    modify_application repo env (cf_name svc) branch None
  else mret tt.

End Script.

(** A manifest whose labels and annotations are one mapping:
    [labels: &a {team: shop}] and [annotations: *a]. *)
Definition shared_labels : document :=
  {| objects :=
       {[ 0 := ODict [(KStr "kind", RStr "Application"); (KStr "metadata", RObj 1)];
          1 := ODict [(KStr "name", RStr "checkout"); (KStr "labels", RObj 2);
                      (KStr "annotations", RObj 2)];
          2 := ODict [(KStr "team", RStr "shop")] ]};
     root := RObj 0 |}.

(** The same with a null key in the shared mapping. *)
Definition shared_null_key : document :=
  {| objects :=
       {[ 0 := ODict [(KStr "kind", RStr "Application"); (KStr "metadata", RObj 1)];
          1 := ODict [(KStr "name", RStr "checkout"); (KStr "labels", RObj 2);
                      (KStr "annotations", RObj 2)];
          2 := ODict [(KNone, RStr "x"); (KStr "team", RStr "shop")] ]};
     root := RObj 0 |}.

Definition show_value (v : value) : string :=
  match v with
  | RNone => "null"
  | RBool b => if b then "true" else "false"
  | RInt n => pretty n
  | RStr s => "'" +:+ s +:+ "'"
  | RObj id => "*" +:+ pretty id
  end.

Definition show_object (o : object) : string :=
  match o with
  | OList xs => "[" +:+ Fake.join (map show_value xs) +:+ "]"
  | ODict d =>
      "{" +:+ Fake.join (map (fun kv => Fake.show_key kv.1 +:+ ": " +:+ show_value kv.2) d)
        +:+ "}"
  end.

(** The root, then every object under its identity. *)
Definition show (app : document) : string :=
  show_value (root app) +:+ " where "
    +:+ Fake.join (map (fun io => "&" +:+ pretty io.1 +:+ " " +:+ show_object io.2)
                     (map_to_list (objects app))).

(** A test double of the codec: it parses the texts of [corpus]. *)
Definition fake_codec (corpus : list (string * document)) : Codec := {|
  bytes_decode := Ok;
  yaml_safe_load text :=
    match Fake.assoc text corpus with
    | Some app => Ok app
    | None => Raise (Exn YAMLError "could not parse")
    end;
  yaml_dump := show;
|}.

Definition sample_codec : Codec :=
  fake_codec [("labels: &a {team: shop}, annotations: *a", shared_labels);
              ("labels: &a {~: x, team: shop}, annotations: *a", shared_null_key)].

Definition file_of (env service text : string) : ContentFile :=
  {| cf_name := "application.yaml";
     cf_path := manifest_path env service;
     cf_sha := "sha-" +:+ service;
     cf_decoded_content := text |}.

(** A repository whose [staging] has the one service [checkout], with the
    manifest of the given text. *)
Definition checkout_with (text : string) : Fake.remote :=
  {| Fake.tree :=
       [("envs/staging", Dir [Fake.entry "staging" "checkout"]);
        (manifest_path "staging" "checkout", File (file_of "staging" "checkout" text))];
     Fake.refs := [("refs/heads/main", "c0ffee")];
     Fake.commits := [];
     Fake.pulls := [];
     Fake.stale := [] |}.

End Aliased.

(** * Properties *)

(** ** Keys and dicts *)

Lemma key_eqb_norm a b : key_eqb a b = true ↔ key_norm a = key_norm b.
Proof.
  destruct a as [|x|x|x], b as [|y|y|y]; simpl;
    rewrite ?String.eqb_eq, ?Z.eqb_eq; split; intros E;
    try done; try congruence.
Qed.

Lemma key_eqb_refl a : key_eqb a a = true.
Proof. by apply key_eqb_norm. Qed.

Lemma key_eqb_sym a b : key_eqb a b = key_eqb b a.
Proof.
  apply eq_true_iff_eq. rewrite !key_eqb_norm. split; congruence.
Qed.

(** Equal keys cannot be told apart by a third key. *)
Lemma key_eqb_congr a b c : key_eqb a b = true → key_eqb c a = key_eqb c b.
Proof.
  intros E. apply eq_true_iff_eq. apply key_eqb_norm in E.
  rewrite !key_eqb_norm. split; congruence.
Qed.

Lemma key_eqb_str s k : key_eqb (KStr s) k = true ↔ k = KStr s.
Proof.
  destruct k; simpl; rewrite ?String.eqb_eq; split; intros E; try done; congruence.
Qed.

Lemma string_leb_refl s : String.leb s s = true.
Proof.
  unfold String.leb. pose proof (String.compare_antisym s s) as E.
  destruct (String.compare s s); simpl in E; done.
Qed.

Lemma key_eqb_leb a b : key_eqb a b = true → key_leb a b = true.
Proof.
  destruct a as [|x|x|x], b as [|y|y|y]; simpl; try done;
    rewrite ?String.eqb_eq, ?Z.eqb_eq, ?Z.leb_le; try lia.
  intros ->. apply string_leb_refl.
Qed.

Lemma dict_get_setitem k' k x d :
  dict_get k' (dict_setitem k x d) = if key_eqb k' k then Some x else dict_get k' d.
Proof.
  induction d as [|[k0 v0] d IH]; simpl; [done|].
  destruct (key_eqb k k0) eqn:E; simpl.
  - rewrite (key_eqb_congr _ _ k' E). by destruct (key_eqb k' k0).
  - rewrite IH. destruct (key_eqb k' k0) eqn:E0; [|done].
    destruct (key_eqb k' k) eqn:E1; [|done].
    rewrite key_eqb_sym, (key_eqb_congr _ _ k E0), E in E1. done.
Qed.

Lemma dict_get_setitem_eq k x d : dict_get k (dict_setitem k x d) = Some x.
Proof. by rewrite dict_get_setitem, key_eqb_refl. Qed.

(** Storing what is already there changes nothing. *)
Lemma dict_setitem_id k x d : dict_get k d = Some x → dict_setitem k x d = d.
Proof.
  induction d as [|[k0 v0] d IH]; simpl; [done|].
  destruct (key_eqb k k0); [congruence|]. intros E. by rewrite IH.
Qed.

Lemma dict_keys_setitem k x d :
  dict_keys (dict_setitem k x d)
  = if dict_get k d is Some _ then dict_keys d else dict_keys d ++ [k].
Proof.
  induction d as [|[k0 v0] d IH]; simpl; [done|].
  destruct (key_eqb k k0); simpl; [done|].
  rewrite IH. by destruct (dict_get k d).
Qed.

Lemma dict_pop_absent k d : dict_get k d = None → dict_pop k d = d.
Proof.
  unfold dict_pop. induction d as [|[k0 v0] d IH]; simpl; [done|].
  destruct (key_eqb k k0) eqn:E; [done|]. intros A.
  rewrite filter_cons_True by done. by rewrite IH.
Qed.

Lemma dict_get_pop k' k d :
  dict_get k' (dict_pop k d) = if key_eqb k' k then None else dict_get k' d.
Proof.
  unfold dict_pop. induction d as [|[k0 v0] d IH]; simpl.
  - by destruct (key_eqb k' k).
  - destruct (key_eqb k k0) eqn:E.
    + rewrite filter_cons_False by (simpl; congruence).
      rewrite IH. rewrite <- (key_eqb_congr _ _ k' E). by destruct (key_eqb k' k).
    + rewrite filter_cons_True by done. simpl. rewrite IH.
      destruct (key_eqb k' k0) eqn:E0; [|done].
      destruct (key_eqb k' k) eqn:E1; [|done].
      rewrite key_eqb_sym, (key_eqb_congr _ _ k E0), E in E1. done.
Qed.

Lemma dict_get_map k (f : pyval → pyval) d :
  dict_get k (map (fun kv => (kv.1, f kv.2)) d) = f <$> dict_get k d.
Proof.
  induction d as [|[k0 v0] d IH]; simpl; [done|]. by destruct (key_eqb k k0).
Qed.

(** ** Sorting the items of a mapping *)

Lemma dict_get_insert_item k x d :
  dict_get k (insert_item x d) = dict_get k (x :: d).
Proof.
  induction d as [|y d IH]; [done|]. destruct x as [kx vx], y as [ky vy].
  simpl in *. destruct (key_leb kx ky) eqn:L; simpl; [done|].
  rewrite IH. destruct (key_eqb k ky) eqn:E0, (key_eqb k kx) eqn:E1; try done.
  assert (key_eqb kx ky = true) as E.
  { rewrite key_eqb_sym, <- (key_eqb_congr _ _ ky E1). by rewrite key_eqb_sym. }
  apply key_eqb_leb in E. congruence.
Qed.

Lemma dict_get_sort_by_key k d : dict_get k (sort_by_key d) = dict_get k d.
Proof.
  induction d as [|[k0 v0] d IH]; [done|]. simpl sort_by_key.
  rewrite dict_get_insert_item. simpl. by rewrite IH.
Qed.

Lemma dict_get_sort_items k d : dict_get k (sort_items d) = dict_get k d.
Proof. unfold sort_items. destruct (comparable d); [apply dict_get_sort_by_key|done]. Qed.

Lemma forallb_insert_item (f : pykey * pyval → bool) x d :
  forallb f (insert_item x d) = f x && forallb f d.
Proof.
  induction d as [|y d IH]; simpl; [done|].
  destruct (key_leb x.1 y.1); simpl; [done|]. rewrite IH.
  destruct (f x), (f y); done.
Qed.

Lemma forallb_sort_by_key (f : pykey * pyval → bool) d :
  forallb f (sort_by_key d) = forallb f d.
Proof.
  induction d as [|x d IH]; simpl; [done|]. by rewrite forallb_insert_item, IH.
Qed.

Lemma comparable_sort_by_key d : comparable (sort_by_key d) = comparable d.
Proof. unfold comparable. by rewrite !forallb_sort_by_key. Qed.

Lemma comparable_sort_items d : comparable (sort_items d) = comparable d.
Proof.
  unfold sort_items. destruct (comparable d) eqn:E; [|done].
  by rewrite comparable_sort_by_key.
Qed.

Lemma comparable_cons x d : comparable (x :: d) = true → comparable d = true.
Proof.
  unfold comparable. simpl. rewrite !orb_true_iff, !andb_true_iff. tauto.
Qed.

(** Within a mapping whose keys can be compared, any two keys are in
    order one way or the other. *)
Lemma key_leb_total (x y : pykey * pyval) d :
  comparable d = true → x ∈ d → y ∈ d →
  key_leb x.1 y.1 = false → key_leb y.1 x.1 = true.
Proof.
  unfold comparable. rewrite orb_true_iff, !forallb_forall.
  intros C Hx Hy. apply list_elem_of_In in Hx, Hy.
  destruct C as [C|C]; pose proof (C _ Hx) as Cx; pose proof (C _ Hy) as Cy;
    destruct x as [[|a|a|a] ?], y as [[|b|b|b] ?]; simpl in *; try done;
    rewrite ?Z.leb_gt, ?Z.leb_le; try lia.
  intros L. destruct (String.leb_total a b) as [E|E]; congruence.
Qed.

Lemma is_sorted_insert_item x d :
  comparable (x :: d) = true → is_sorted d = true → is_sorted (insert_item x d) = true.
Proof.
  induction d as [|y d IH]; intros C S; [done|].
  simpl insert_item. destruct (key_leb x.1 y.1) eqn:L.
  - simpl. simpl in S. by rewrite L.
  - assert (key_leb y.1 x.1 = true) as L'.
    { apply (key_leb_total x y (x :: y :: d)); [done|set_solver..|done]. }
    assert (is_sorted (insert_item x d) = true) as S'.
    { apply IH.
      - revert C. unfold comparable. simpl.
        rewrite !orb_true_iff, !andb_true_iff. tauto.
      - simpl in S. destruct d; [done|]. by apply andb_true_iff in S as [_ ?]. }
    destruct d as [|z d]; simpl.
    + by rewrite L'.
    + simpl in S'. apply andb_true_iff in S as [Lyz S].
      destruct (key_leb x.1 z.1); simpl in *.
      * by rewrite L'.
      * by rewrite Lyz.
Qed.

Lemma is_sorted_sort_by_key d : comparable d = true → is_sorted (sort_by_key d) = true.
Proof.
  induction d as [|x d IH]; intros C; [done|]. simpl sort_by_key.
  apply is_sorted_insert_item.
  - revert C. unfold comparable. simpl. by rewrite !forallb_sort_by_key.
  - apply IH. by apply comparable_cons in C.
Qed.





(** ** Induction on documents *)


(** ** The representation *)


Lemma dict_get_represent k d :
  dict_get k (sort_items (map (fun kv => (kv.1, represent kv.2)) d))
  = represent <$> dict_get k d.
Proof. by rewrite dict_get_sort_items, (dict_get_map k represent). Qed.

(** Every key and every value of the document is in its representation,
    at the same path. *)
Lemma lookup_path_represent p v :
  lookup_path p (represent v) = represent <$> lookup_path p v.
Proof.
  revert v. induction p as [|[k|i] p IH]; intros v; [done|..].
  - destruct v; try done. simpl. rewrite dict_get_represent.
    destruct (dict_get k items); simpl; [apply IH|done].
  - destruct v; try done. simpl. rewrite list_lookup_fmap.
    destruct (xs !! i); simpl; [apply IH|done].
Qed.

Lemma represent_dict_inv v d :
  represent v = VDict d →
  ∃ d0, v = VDict d0 ∧ d = sort_items (map (fun kv => (kv.1, represent kv.2)) d0).
Proof. destruct v; simpl; intros E; try done. injection E as <-. eauto. Qed.

(** Every mapping of the representation whose keys can be compared has
    them in order. *)
Lemma represent_sorted p v d :
  lookup_path p (represent v) = Some (VDict d) → comparable d = true →
  is_sorted d = true.
Proof.
  rewrite lookup_path_represent. destruct (lookup_path p v) as [x|]; [|done].
  simpl. intros [= E] C. apply represent_dict_inv in E as (d0 & -> & ->).
  rewrite comparable_sort_items in C. unfold sort_items. rewrite C.
  by apply is_sorted_sort_by_key.
Qed.

(** ** The edit of lines 59-62 *)

Lemma annotations_inv app ann :
  lookup_path annotations_path app = Some (VDict ann) ↔
  ∃ root md, app = VDict root ∧
    dict_get (KStr "metadata") root = Some (VDict md) ∧
    dict_get (KStr "annotations") md = Some (VDict ann).
Proof.
  split.
  - destruct app as [| | | | |root]; try done. simpl.
    destruct (dict_get (KStr "metadata") root) as [[| | | | |md]|] eqn:E1; try done.
    destruct (dict_get (KStr "annotations") md) as [x|] eqn:E2; [|done].
    intros [= ->]. eauto.
  - intros (root & md & -> & E1 & E2). simpl. by rewrite E1, E2.
Qed.

(** What the edit makes of the annotations. *)
Lemma mutate_annotations_dict root md ann key :
  dict_get (KStr "metadata") root = Some (VDict md) →
  dict_get (KStr "annotations") md = Some (VDict ann) →
  mutate_annotations (VDict root) key
  = Ok (VDict (dict_setitem (KStr "metadata")
                 (VDict (dict_setitem (KStr "annotations")
                           (VDict (if truthy key
                                   then dict_setitem (KStr (default EmptyString key))
                                          (VStr "*") ann
                                   else dict_pop (key_of_arg key) ann)) md)) root)).
Proof.
  intros E1 E2. unfold mutate_annotations. simpl. rewrite E1. simpl. rewrite E2.
  simpl. by destruct (truthy key).
Qed.

(** The edit succeeds only on a document that has the annotations, as a
    mapping. *)
Lemma mutate_annotations_inv app key app1 :
  mutate_annotations app key = Ok app1 →
  ∃ ann, lookup_path annotations_path app = Some (VDict ann).
Proof.
  unfold mutate_annotations. destruct app as [| | | | |root]; try done. simpl.
  destruct (dict_get (KStr "metadata") root) as [[| | | | |md]|]; try done. simpl.
  destruct (dict_get (KStr "annotations") md) as [[| | | | |ann]|]; simpl; try done;
    destruct (truthy key); simpl; try done. all: eauto.
Qed.

Lemma truthy_ignore_tags_key service : truthy (Some (ignore_tags_key service)) = true.
Proof. done. Qed.


Section Serializer.
Context {yaml : YamlCodec}.


Lemma edit_manifest_ok content text app key app1 :
  bytes_decode content = Ok text → yaml_safe_load text = Ok app →
  mutate_annotations app key = Ok app1 →
  edit_manifest content key = Ok (yaml_dump app1).
Proof.
  intros E1 E2 E3. unfold edit_manifest. rewrite E1. simpl. rewrite E2. simpl.
  by rewrite E3.
Qed.

End Serializer.

Section Editor.
Context {yaml : YamlCodec}.


(** The edit of the [resume] path looks for the key [None], whatever the
    service: it leaves a document without that key as it is. *)
Lemma resume_without_null_key app ann :
  lookup_path annotations_path app = Some (VDict ann) →
  dict_get KNone ann = None →
  mutate_annotations app None = Ok app.
Proof.
  intros A N. apply annotations_inv in A as (root & md & -> & E1 & E2).
  rewrite (mutate_annotations_dict _ _ _ _ E1 E2). cbn [truthy key_of_arg].
  rewrite (dict_pop_absent _ _ N).
  by rewrite (dict_setitem_id _ _ _ E2), (dict_setitem_id _ _ _ E1).
Qed.

(** C7, amended.  Where no annotation changes (the [resume] path, on
    annotations without a null key), the text written is the
    serialization of the representation of the manifest: every path
    reads there the representation of what it read in the manifest, and
    every mapping whose keys can be compared has them in sorted
    order. *)
Theorem reserialize_keeps_entries_and_sorts_keys
    (content text : string) (app : pyval) (ann : pydict) :
  bytes_decode content = Ok text →
  yaml_safe_load text = Ok app →
  lookup_path annotations_path app = Some (VDict ann) →
  dict_get KNone ann = None →
  edit_manifest content None = Ok (yaml_emit (represent app)) ∧
  (∀ p, lookup_path p (represent app) = represent <$> lookup_path p app) ∧
  (∀ p d, lookup_path p (represent app) = Some (VDict d) →
          comparable d = true → is_sorted d = true).
Proof.
  intros D L A N. split; [|split].
  - eapply edit_manifest_ok; [exact D|exact L|]. by eapply resume_without_null_key.
  - intros p. apply lookup_path_represent.
  - intros p d. apply represent_sorted.
Qed.

(** The edit of the [resume] path leaves every annotation under a string
    key where it is. *)
Lemma resume_keeps_string_keys app app' k :
  mutate_annotations app None = Ok app' →
  lookup_path (annotation_path (KStr k)) app'
  = lookup_path (annotation_path (KStr k)) app.
Proof.
  intros M. destruct (mutate_annotations_inv _ _ _ M) as [ann A].
  apply annotations_inv in A as (root & md & -> & E1 & E2).
  rewrite (mutate_annotations_dict _ _ _ _ E1 E2) in M. injection M as <-.
  unfold annotation_path, annotations_path. cbn [app lookup_path truthy key_of_arg].
  rewrite !dict_get_setitem_eq, E1, E2. by rewrite dict_get_pop.
Qed.

End Editor.

(** ** Running the script *)

Lemma bind_run {W A B} (m : M W A) (f : A → M W B) st :
  (m ≫= f) st
  = match m st with
    | (Ok a, st') => f a st'
    | (Raise e, st') => (Raise e, st')
    end.
Proof. done. Qed.

Lemma for_each_raise {W A} (body : A → M W unit) pre x post e st st1 st2 :
  for_each pre body st = (Ok tt, st1) →
  body x st1 = (Raise e, st2) →
  for_each (pre ++ x :: post) body st = (Raise e, st2).
Proof.
  revert st. induction pre as [|y pre IH]; intros st; simpl.
  - intros [= <-] B. by rewrite bind_run, B.
  - rewrite !bind_run. destruct (body y st) as [[[]|e'] st'] eqn:E; [|done].
    intros F B. by apply IH.
Qed.

(** Splits the projections of a list of calls along its appends. *)
Ltac project_calls :=
  unfold read_paths, pull_titles, update_messages, created_refs;
  rewrite ?omap_app; cbn [omap]; rewrite ?app_nil_r, <- ?app_assoc; cbn [app].

Section Workflow.
Context {W : Type} {github : GithubApi W} {yaml : YamlCodec}.

Lemma update_repo_file_trace repo p m c b sha st r st' :
  update_repo_file repo p m c b sha st = (r, st') →
  calls st' = calls st ++ [CUpdateFile p m c sha b].
Proof.
  unfold update_repo_file, try_github, request, logging, lift.
  rewrite !bind_run.
  destruct (gh_update_file repo p m c sha b (world st)) as [[[]|e] w]; simpl.
  - by intros [= <- <-].
  - destruct (exn_kind e); simpl; by intros [= <- <-].
Qed.

(** One manifest: it is read once; it is updated once when the edit goes
    well, and at most once when it does not; no pull request is opened. *)
Lemma modify_application_trace repo env service branch key st r st' :
  modify_application repo env service branch key st = (r, st') →
  read_paths (calls st') = read_paths (calls st) ++ [manifest_path env service] ∧
  pull_titles (calls st') = pull_titles (calls st) ∧
  match r with
  | Ok _ =>
      update_messages (calls st')
      = update_messages (calls st) ++ [commit_message env service]
  | Raise _ =>
      update_messages (calls st') = update_messages (calls st) ∨
      update_messages (calls st')
      = update_messages (calls st) ++ [commit_message env service]
  end.
Proof.
  unfold modify_application, request, lift. rewrite bind_run.
  destruct (gh_get_contents _ _ _ _) as [[c|e] w]; cbn [calls].
  2:{ intros [= <- <-]. cbn [calls]. project_calls. auto. }
  rewrite bind_run. destruct (as_file c) as [f|e].
  2:{ intros [= <- <-]. cbn [calls]. project_calls. auto. }
  rewrite bind_run. destruct (edit_manifest (cf_decoded_content f) key) as [y|e].
  2:{ intros [= <- <-]. cbn [calls]. project_calls. auto. }
  intros U. pose proof (update_repo_file_trace _ _ _ _ _ _ _ _ _ U) as T.
  cbn [calls] in T. rewrite T. project_calls. destruct r; auto.
Qed.

(** The call of line 72 passes the key of the service. *)
Lemma handle_service_pause repo env branch svc :
  handle_service repo env branch "pause" svc
  = modify_application repo env (cf_name svc) branch
      (Some (ignore_tags_key (cf_name svc))).
Proof. done. Qed.

(** The call of line 75 passes no key. *)
Lemma handle_service_resume repo env branch svc :
  handle_service repo env branch "resume" svc
  = modify_application repo env (cf_name svc) branch None.
Proof. done. Qed.

(** What is sent as the new content is the text of the edit. *)
Lemma modify_application_writes repo env service branch key st w f out :
  gh_get_contents repo (manifest_path env service)
    (Some (default_branch repo)) (world st) = (Ok (File f), w) →
  edit_manifest (cf_decoded_content f) key = Ok out →
  modify_application repo env service branch key st
  = update_repo_file repo (cf_path f) (commit_message env service) out branch
      (cf_sha f)
      (State w (calls st ++ [CGetContents (manifest_path env service)
                               (Some (default_branch repo))]) (log st)).
Proof.
  intros G E. unfold modify_application, request, lift.
  rewrite bind_run, G. rewrite !bind_run. cbn [as_file]. by rewrite E.
Qed.

Lemma handle_service_trace repo env branch action svc st r st' :
  action = "pause" ∨ action = "resume" →
  handle_service repo env branch action svc st = (r, st') →
  read_paths (calls st')
  = read_paths (calls st) ++ [manifest_path env (cf_name svc)] ∧
  pull_titles (calls st') = pull_titles (calls st) ∧
  match r with
  | Ok _ =>
      update_messages (calls st')
      = update_messages (calls st) ++ [commit_message env (cf_name svc)]
  | Raise _ =>
      update_messages (calls st') = update_messages (calls st) ∨
      update_messages (calls st')
      = update_messages (calls st) ++ [commit_message env (cf_name svc)]
  end.
Proof.
  intros [-> | ->]; unfold handle_service; cbn [String.eqb Ascii.eqb Bool.eqb];
    apply modify_application_trace.
Qed.

(** A batch that went well: every service was read once and updated
    once, in the order of the listing. *)
Lemma for_each_service_trace repo env branch action services st st' :
  action = "pause" ∨ action = "resume" →
  for_each services (handle_service repo env branch action) st = (Ok tt, st') →
  read_paths (calls st')
  = read_paths (calls st) ++ map (fun s => manifest_path env (cf_name s)) services ∧
  update_messages (calls st')
  = update_messages (calls st)
      ++ map (fun s => commit_message env (cf_name s)) services ∧
  pull_titles (calls st') = pull_titles (calls st).
Proof.
  intros A. revert st. induction services as [|svc services IH]; intros st.
  - intros [= <-]. by rewrite !app_nil_r.
  - cbn [for_each]. rewrite bind_run.
    destruct (handle_service repo env branch action svc st) as [[[]|e] st1] eqn:E;
      [|done].
    intros F. destruct (handle_service_trace _ _ _ _ _ _ _ _ A E) as (R1 & P1 & U1).
    destruct (IH _ F) as (R2 & U2 & P2).
    rewrite R2, U2, P2, R1, U1, P1. cbn [map]. by rewrite <- !app_assoc.
Qed.

Lemma create_branch_trace repo branch st r st' :
  create_branch repo branch st = (r, st') →
  read_paths (calls st') = read_paths (calls st) ∧
  update_messages (calls st') = update_messages (calls st) ∧
  pull_titles (calls st') = pull_titles (calls st).
Proof.
  unfold create_branch, try_github, request, logging, lift. rewrite !bind_run.
  destruct (gh_get_branch _ _ _) as [[sha|e] w]; cbn [world calls log].
  2:{ destruct (exn_kind e); cbn; intros [= <- <-]; cbn [calls];
      project_calls; auto. }
  rewrite !bind_run.
  destruct (gh_create_git_ref _ _ _ _) as [[[]|e] w']; cbn [world calls log].
  - intros [= <- <-]. cbn [calls]. project_calls. auto.
  - destruct (exn_kind e); cbn; intros [= <- <-]; cbn [calls];
      project_calls; auto.
Qed.

(** C4.  A batch of [pause] or [resume] in which the service at some
    position fails, after the services before it went well: the run
    raises what that service raised, and in the whole run no pull
    request is opened, the manifests read are those of the services up
    to that position, once each and in order, and the updates sent are
    those of the services before it, once each and in order, with at
    most the one of the failing service after them. *)
Theorem failure_stops_the_batch
    (repo : Repository) (args : Namespace) (branch_name : string)
    (pre post : list ContentFile) (svc : ContentFile) (e : exn)
    (st0 st1 st2 st3 st4 : state W) :
  let env := py_str (target_env args) in
  let act := py_str (action args) in
  action args = Some "pause" ∨ action args = Some "resume" →
  create_branch repo branch_name st0 = (Ok tt, st1) →
  request (CGetContents ("envs/" +:+ env) None)
    (gh_get_contents repo ("envs/" +:+ env) None) st1
  = (Ok (Dir (pre ++ svc :: post)), st2) →
  for_each pre (handle_service repo env branch_name act) st2 = (Ok tt, st3) →
  handle_service repo env branch_name act svc st3 = (Raise e, st4) →
  main_actions repo args branch_name st0 = (Raise e, st4) ∧
  pull_titles (calls st4) = pull_titles (calls st0) ∧
  read_paths (calls st4)
  = read_paths (calls st0)
      ++ map (fun s => manifest_path env (cf_name s)) (pre ++ [svc]) ∧
  (update_messages (calls st4)
   = update_messages (calls st0)
       ++ map (fun s => commit_message env (cf_name s)) pre ∨
   update_messages (calls st4)
   = update_messages (calls st0)
       ++ map (fun s => commit_message env (cf_name s)) (pre ++ [svc])).
Proof.
  intros env act A B L F X.
  assert (act = "pause" ∨ act = "resume") as A'.
  { unfold act. destruct A as [-> | ->]; auto. }
  destruct (create_branch_trace _ _ _ _ _ B) as (R1 & U1 & P1).
  assert (calls st2 = calls st1 ++ [CGetContents ("envs/" +:+ env) None]) as C2.
  { revert L. unfold request.
    destruct (gh_get_contents _ _ _ _) as [? ?]. by intros [= _ <-]. }
  assert (read_paths (calls st2) = read_paths (calls st1) ∧
          update_messages (calls st2) = update_messages (calls st1) ∧
          pull_titles (calls st2) = pull_titles (calls st1)) as (R2 & U2 & P2).
  { rewrite C2. project_calls. done. }
  destruct (for_each_service_trace _ _ _ _ _ _ _ A' F) as (R3 & U3 & P3).
  destruct (handle_service_trace _ _ _ _ _ _ _ _ A' X) as (R4 & P4 & U4).
  split; [|split; [|split]].
  - unfold main_actions. rewrite bind_run, B.
    replace (bool_decide (action args = Some "pause")
             || bool_decide (action args = Some "resume")) with true.
    2:{ destruct A as [-> | ->]; done. }
    rewrite bind_run. fold env. rewrite L.
    unfold handle_services. rewrite !bind_run. cbn [lift py_iter].
    fold act. by rewrite (for_each_raise _ _ _ _ _ _ _ _ F X).
  - by rewrite P4, P3, P2, P1.
  - by rewrite R4, R3, R2, R1, map_app, <- app_assoc.
  - destruct U4 as [U4|U4]; [left|right]; rewrite U4, U3, U2, U1; [done|].
    by rewrite map_app, <- app_assoc.
Qed.

(** C9.  Without [GITHUB_TOKEN] in the environment, resolving the
    repository raises [KeyError] and the run ends there: no call was
    sent, the remote state and the log are what they were. *)
Theorem missing_token_fails_before_any_call (p : process) (name : string)
    (st : state W) :
  environ p !! "GITHUB_TOKEN" = None →
  get_repo (environ p) name st = (Raise (Exn KeyError "GITHUB_TOKEN"), st) ∧
  main p st = (Raise (Exn KeyError "GITHUB_TOKEN"), st).
Proof.
  intros E.
  assert (∀ n, get_repo (environ p) n st = (Raise (Exn KeyError "GITHUB_TOKEN"), st))
    as G.
  { intros n. unfold get_repo, try_github, lift, environ_getitem.
    rewrite bind_run, E. done. }
  split; [apply G|]. unfold main. by rewrite bind_run, G.
Qed.

(** Line 91 raises on every namespace: [args] has no attribute
    [target]. *)
Lemma branch_name_of_raises args today :
  branch_name_of args today
  = Raise (Exn AttributeError "'Namespace' object has no attribute 'target'").
Proof. done. Qed.

(** What [get_repo] sends: nothing, or the one lookup of the
    repository. *)
Lemma get_repo_trace env name st r st' :
  get_repo env name st = (r, st') →
  calls st' = calls st ∨ calls st' = calls st ++ [CGetRepo name].
Proof.
  unfold get_repo, try_github, lift, request, logging. rewrite bind_run.
  destruct (environ_getitem env "GITHUB_TOKEN") as [t|e].
  2:{ destruct (exn_kind e); cbn; intros [= <- <-]; auto. }
  rewrite bind_run. destruct (auth_token t) as [a|e].
  2:{ destruct (exn_kind e); cbn; intros [= <- <-]; auto. }
  destruct (gh_get_repo a name (world st)) as [[x|e] w]; cbn [world calls log].
  - intros [= <- <-]. auto.
  - destruct (exn_kind e); cbn; intros [= <- <-]; auto.
Qed.

(** C2, on the code.  No run names a branch: the expression of line 91
    raises [AttributeError], so [main] ends with an exception whatever
    its inputs, having sent at most the lookup of the repository;
    [create_branch] is not reached. *)
Theorem main_never_names_the_branch :
  (∀ args today,
     branch_name_of args today
     = Raise (Exn AttributeError "'Namespace' object has no attribute 'target'")) ∧
  (∀ (p : process) (st : state W),
     ∃ e st', main p st = (Raise e, st') ∧
       (calls st' = calls st ∨ calls st' = calls st ++ [CGetRepo "antonputra/k8s"])).
Proof.
  split; [apply branch_name_of_raises|]. intros p st. unfold main.
  rewrite bind_run.
  destruct (get_repo (environ p) "antonputra/k8s" st) as [[repo|e] st'] eqn:G.
  - rewrite bind_run. unfold lift. rewrite branch_name_of_raises.
    eexists _, _. split; [done|]. by eapply get_repo_trace.
  - eexists _, _. split; [done|]. by eapply get_repo_trace.
Qed.

(** Lines 93-102 on an action other than [pause] and [resume]: after the
    branch, nothing is read, updated or opened, and nothing is raised
    for the action. *)
Lemma main_actions_other_action repo args branch_name st :
  action args ≠ Some "pause" → action args ≠ Some "resume" →
  ∃ r st', main_actions repo args branch_name st = (r, st') ∧
    r = (create_branch repo branch_name st).1 ∧
    world st' = world (create_branch repo branch_name st).2 ∧
    calls st' = calls (create_branch repo branch_name st).2.
Proof.
  intros N1 N2. unfold main_actions. rewrite bind_run.
  destruct (create_branch repo branch_name st) as [[[]|e] st1]; [|by eexists _, _].
  rewrite !bool_decide_eq_false_2 by done. cbn [orb].
  destruct (bool_decide (action args = Some "push")); by eexists _, _.
Qed.

(** C10, amended.  A fetched manifest that has no [metadata.annotations]
    mapping: [modify_application] raises, having sent the read and nothing
    else.  What it raises is a [KeyError], a lookup error, when the
    document is a mapping without [metadata] or its [metadata] is a mapping
    without [annotations]; otherwise (the document, its [metadata] or its
    [annotations] is there and is no mapping) it is a [TypeError] or an
    [AttributeError], no lookup error.  And the edit of a manifest whose
    [metadata.annotations] is a mapping does not raise. *)
Theorem modify_application_needs_the_annotations
    (repo : Repository) (env service branch : string) (key : option string) :
  (∀ (st : state W) (w : W) (f : ContentFile) (text : string) (app : pyval),
     gh_get_contents repo (manifest_path env service)
       (Some (default_branch repo)) (world st) = (Ok (File f), w) →
     bytes_decode (cf_decoded_content f) = Ok text →
     yaml_safe_load text = Ok app →
     (∀ ann, lookup_path annotations_path app ≠ Some (VDict ann)) →
     ∃ e,
       modify_application repo env service branch key st
       = (Raise e,
          State w (calls st ++ [CGetContents (manifest_path env service)
                                  (Some (default_branch repo))]) (log st)) ∧
       (lacks_annotations app → exn_kind e = KeyError ∧ is_LookupError e = true) ∧
       (¬ lacks_annotations app →
        (exn_kind e = TypeError ∨ exn_kind e = AttributeError) ∧
        is_LookupError e = false)) ∧
  (∀ (app : pyval) (ann : pydict),
     lookup_path annotations_path app = Some (VDict ann) →
     ∃ app', mutate_annotations app key = Ok app').
Proof.
  split.
  - intros st w f text app G D L N.
    destruct (mutate_annotations app key) as [app'|e] eqn:E.
    { destruct (mutate_annotations_inv _ _ _ E) as [ann A]. by destruct (N ann). }
    exists e. split; [|split].
    + unfold modify_application, request, lift. rewrite bind_run, G.
      rewrite !bind_run. cbn [as_file]. unfold edit_manifest. rewrite D. cbn.
      rewrite L. cbn. by rewrite E.
    + intros (root & -> & [M | (md & M1 & M2)]); revert E;
        unfold mutate_annotations; cbn.
      * rewrite M. by intros [= <-].
      * rewrite M1. cbn. rewrite M2. by intros [= <-].
    + intros NL. revert E. unfold mutate_annotations.
      destruct app as [| | | | |root]; cbn; try (intros [= <-]; by auto).
      destruct (dict_get (KStr "metadata") root) as [x|] eqn:M1.
      2:{ destruct NL. exists root. split; [done|by left]. }
      cbn. destruct x as [| | | | |md]; cbn; try (intros [= <-]; by auto).
      destruct (dict_get (KStr "annotations") md) as [y|] eqn:M2.
      2:{ destruct NL. exists root. split; [done|]. right. by exists md. }
      cbn. destruct y as [| | | | |ann].
      6:{ destruct (N ann). apply annotations_inv. by exists root, md. }
      all: destruct (truthy key); cbn; intros [= <-]; by auto.
  - intros app ann A. apply annotations_inv in A as (root & md & -> & E1 & E2).
    eexists. by apply mutate_annotations_dict.
Qed.

End Workflow.

(** ** On the test double *)


(** C7, as stated, fails.  The manifest has the annotations [owner] then
    [contact]; on the path where no annotation changes, the text written
    has [contact] before [owner]. *)
Lemma reserialize_reorders_the_annotations :
  @edit_manifest Sample.yaml (Fake.show Sample.unpaused) None
  = Ok (Fake.show (represent Sample.unpaused)) ∧
  keys_at annotations_path Sample.unpaused = Some [KStr "owner"; KStr "contact"] ∧
  keys_at annotations_path (represent Sample.unpaused)
  = Some [KStr "contact"; KStr "owner"] ∧
  keys_at annotations_path (represent Sample.unpaused)
  ≠ keys_at annotations_path Sample.unpaused.
Proof. repeat split; try (vm_compute; reflexivity). vm_compute. discriminate. Qed.

Lemma reserialize_keeps_entries_and_sorts_keys_witness :
  @edit_manifest Sample.yaml (Fake.show Sample.unpaused) None
  = Ok (Fake.show (represent Sample.unpaused)) ∧
  lookup_path (annotation_path (KStr "owner")) (represent Sample.unpaused)
  = Some (VStr "shop").
Proof.
  destruct (reserialize_keeps_entries_and_sorts_keys (yaml := Sample.yaml)
              (Fake.show Sample.unpaused) (Fake.show Sample.unpaused)
              Sample.unpaused
              [(KStr "owner", VStr "shop"); (KStr "contact", VStr "ops")])
    as (E & P & _).
  - reflexivity.
  - vm_compute. reflexivity.
  - reflexivity.
  - reflexivity.
  - split; [exact E|]. rewrite P. reflexivity.
Defined.

Lemma failure_stops_the_batch_witness :
  let st0 := Fake.start Sample.a_and_b in
  ∃ st4,
    main_actions (yaml := Sample.yaml) Fake.k8s (Fake.cli "pause" "staging")
      Sample.branch st0
    = (Raise Fake.conflict, st4) ∧
    pull_titles (calls st4) = [] ∧
    read_paths (calls st4)
    = ["envs/staging/a/application.yaml"; "envs/staging/b/application.yaml"].
Proof.
  intros st0.
  pose (args := Fake.cli "pause" "staging").
  pose (st1 := (create_branch Fake.k8s Sample.branch st0).2).
  pose (st2 := (request (CGetContents "envs/staging" None)
                  (gh_get_contents Fake.k8s "envs/staging" None) st1).2).
  pose (body := handle_service (yaml := Sample.yaml) Fake.k8s "staging"
                  Sample.branch "pause").
  pose (st3 := (body (Fake.entry "staging" "a") st2).2).
  pose (st4 := (body (Fake.entry "staging" "b") st3).2).
  exists st4.
  destruct (failure_stops_the_batch (yaml := Sample.yaml) Fake.k8s args
              Sample.branch [Fake.entry "staging" "a"] []
              (Fake.entry "staging" "b") Fake.conflict st0 st1 st2 st3 st4)
    as (E & P & R & _).
  - left. reflexivity.
  - vm_compute. reflexivity.
  - vm_compute. reflexivity.
  - vm_compute. reflexivity.
  - vm_compute. reflexivity.
  - split; [exact E|]. split; [exact P|]. exact R.
Defined.

Lemma missing_token_fails_before_any_call_witness :
  let p := {| environ := ∅; argv := Fake.cli "pause" "staging";
              clock := Sample.new_year |} in
  let st := Fake.start Sample.a_and_b in
  main (yaml := Sample.yaml) p st = (Raise (Exn KeyError "GITHUB_TOKEN"), st).
Proof.
  intros p st.
  exact (proj2 (missing_token_fails_before_any_call (yaml := Sample.yaml) p
                  "antonputra/k8s" st eq_refl)).
Defined.

Lemma modify_application_needs_the_annotations_witness :
  (∃ e st',
     modify_application (yaml := Sample.yaml) Fake.k8s "staging" "checkout"
       Sample.branch (Some (ignore_tags_key "checkout"))
       (Fake.start (Sample.checkout_only Sample.no_annotations))
     = (Raise e, st') ∧ is_LookupError e = true ∧ update_messages (calls st') = []) ∧
  (∃ app', mutate_annotations Sample.unpaused None = Ok app') ∧
  (∃ e st',
     modify_application (yaml := Odd.yaml) Fake.k8s "staging" "checkout"
       Sample.branch None (Fake.start (Sample.checkout_only Odd.null_annotations))
     = (Raise e, st') ∧ is_LookupError e = false ∧ update_messages (calls st') = []).
Proof.
  pose proof (modify_application_needs_the_annotations (W := Fake.remote)
                (yaml := Sample.yaml) Fake.k8s "staging" "checkout" Sample.branch
                (Some (ignore_tags_key "checkout"))) as [A _].
  pose proof (modify_application_needs_the_annotations (W := Fake.remote)
                (yaml := Sample.yaml) Fake.k8s "staging" "checkout" Sample.branch
                None) as [_ B].
  split.
  - destruct (A (Fake.start (Sample.checkout_only Sample.no_annotations))
                (Sample.checkout_only Sample.no_annotations)
                (Fake.file_of "staging" "checkout" Sample.no_annotations)
                (Fake.show Sample.no_annotations) Sample.no_annotations)
      as (e & E & L & _).
    + reflexivity.
    + reflexivity.
    + vm_compute. reflexivity.
    + intros ann. vm_compute. discriminate.
    + exists e. eexists. split; [exact E|]. split; [|reflexivity].
      apply L. eexists. split; [reflexivity|]. right. eexists.
      split; reflexivity.
  - split.
    + apply (B Sample.unpaused
               [(KStr "owner", VStr "shop"); (KStr "contact", VStr "ops")]).
      reflexivity.
    + pose proof (modify_application_needs_the_annotations (W := Fake.remote)
                    (yaml := Odd.yaml) Fake.k8s "staging" "checkout" Sample.branch
                    None) as [C _].
      destruct (C (Fake.start (Sample.checkout_only Odd.null_annotations))
                  (Sample.checkout_only Odd.null_annotations)
                  (Fake.file_of "staging" "checkout" Odd.null_annotations)
                  (Fake.show Odd.null_annotations) Odd.null_annotations)
        as (e & E & _ & L).
      * reflexivity.
      * reflexivity.
      * vm_compute. reflexivity.
      * intros ann. vm_compute. discriminate.
      * exists e. eexists. split; [exact E|]. split; [|reflexivity].
        apply L. intros (root & R & [M | (md & M1 & M2)]).
        -- injection R as <-. vm_compute in M. discriminate.
        -- injection R as <-. vm_compute in M1. injection M1 as <-.
           vm_compute in M2. discriminate.
Defined.

(** C10, as stated, fails.  A manifest with [annotations: null] has no
    [annotations] mapping under [metadata]; pausing its service raises
    [TypeError] on line 60, which is no lookup error (and resuming raises
    [AttributeError] on line 62).  Nothing but the read was sent. *)
Lemma null_annotations_raise_no_lookup_error :
  let st := Fake.start (Sample.checkout_only Odd.null_annotations) in
  let read := CGetContents (manifest_path "staging" "checkout") (Some "main") in
  let pause := Exn TypeError "'NoneType' object does not support item assignment" in
  let resume := Exn AttributeError "'NoneType' object has no attribute 'pop'" in
  lookup_path annotations_path Odd.null_annotations = Some VNone ∧
  modify_application (yaml := Odd.yaml) Fake.k8s "staging" "checkout" Sample.branch
    (Some (ignore_tags_key "checkout")) st
  = (Raise pause, State (Sample.checkout_only Odd.null_annotations) [read] []) ∧
  modify_application (yaml := Odd.yaml) Fake.k8s "staging" "checkout" Sample.branch
    None st
  = (Raise resume, State (Sample.checkout_only Odd.null_annotations) [read] []) ∧
  is_LookupError pause = false ∧ is_LookupError resume = false.
Proof. repeat split; vm_compute; reflexivity. Qed.

(** C1, on the code.  [resume] on a paused manifest: the run goes through,
    and the one document it writes back is the paused manifest, in key
    order, the ignore-tags annotation of the service still in it. *)
Theorem resume_writes_back_the_paused_manifest :
  let run :=
    main_actions (yaml := Sample.yaml) Fake.k8s (Fake.cli "resume" "staging")
      "resume-staging-2024-01-01" (Fake.start (Sample.checkout_only Sample.paused)) in
  run.1 = Ok tt ∧
  Fake.commits (world run.2)
  = [("resume-staging-2024-01-01", manifest_path "staging" "checkout",
      Fake.show (represent Sample.paused))] ∧
  lookup_path (annotation_path Sample.ignore_checkout) Sample.paused
  = Some (VStr "*") ∧
  lookup_path (annotation_path Sample.ignore_checkout) (represent Sample.paused)
  = Some (VStr "*").
Proof. repeat split; vm_compute; reflexivity. Qed.

(** C6, on the code.  [resume] for the service [checkout] on a manifest
    that has no ignore-tags annotation for it, and a null key among its
    annotations: the document written back has lost the entry under the
    null key. *)
Theorem resume_drops_the_null_key :
  let run :=
    main_actions (yaml := Sample.yaml) Fake.k8s (Fake.cli "resume" "staging")
      "resume-staging-2024-01-01"
      (Fake.start (Sample.checkout_only Sample.null_keyed)) in
  let written := Fake.manifest [(KStr "owner", VStr "shop")] in
  lookup_path (annotation_path Sample.ignore_checkout) Sample.null_keyed = None ∧
  run.1 = Ok tt ∧
  Fake.commits (world run.2)
  = [("resume-staging-2024-01-01", manifest_path "staging" "checkout",
      Fake.show (represent written))] ∧
  lookup_path (annotation_path KNone) Sample.null_keyed = Some (VStr "x") ∧
  lookup_path (annotation_path KNone) (represent written) = None.
Proof. repeat split; vm_compute; reflexivity. Qed.

(** C8, on the code.  [--action push --target-env staging] with a token:
    the run raises [AttributeError] at line 91, after the lookup of the
    repository; no branch is created, the remote state is what it was. *)
Theorem push_run_raises_before_the_branch :
  let p := {| environ := Fake.token; argv := Fake.cli "push" "staging";
              clock := Sample.new_year |} in
  main (yaml := Sample.yaml) p (Fake.start Sample.a_and_b)
  = (Raise (Exn AttributeError "'Namespace' object has no attribute 'target'"),
     State Sample.a_and_b [CGetRepo "antonputra/k8s"] []).
Proof. vm_compute. reflexivity. Qed.

(** ** The wrappers of the service calls *)

Lemma try_github_run {W A} (body : M W A) (msg : exn → string) (st : state W) :
  try_github body msg st
  = (let (r, st1) := body st in
     (r, State (world st1) (calls st1) (log st1 ++ error_records msg r))).
Proof.
  unfold try_github, error_records, logging, lift.
  destruct (body st) as [[a|e] [w c l]]; cbn [world calls log].
  - by rewrite app_nil_r.
  - destruct (exn_kind e); cbn; by rewrite ?app_nil_r.
Qed.

(** A request followed by the record of its success. *)
Lemma request_then_info {W A} (c : call) (f : W → result A * W) (msg : string)
    (st : state W) :
  (request c f ≫= λ _, logging INFO msg) st
  = (let (r, w) := f (world st) in
     (match r with Ok _ => Ok tt | Raise e => Raise e end,
      State w (calls st ++ [c]) (log st ++ info_records msg r))).
Proof.
  rewrite bind_run. unfold request, logging, info_records.
  destruct (f (world st)) as [[a|e] w]; cbn [world calls log]; [done|].
  by rewrite app_nil_r.
Qed.

Section Wrappers.
Context {W : Type} {github : GithubApi W} {yaml : YamlCodec}.

(** X1.  [update_repo_file] sends one [update_file], with the sha before
    the branch; its outcome is the outcome of that call, an exception the
    very one the call raised; it leaves one record in the log, INFO when
    the call went well and ERROR when it raised a [GithubException], and
    none for an exception of another class. *)
Theorem update_repo_file_outcome (repo : Repository)
    (file_path message content branch sha : string) (st : state W) :
  update_repo_file repo file_path message content branch sha st
  = (let (r, w) := gh_update_file repo file_path message content sha branch (world st) in
     (r, State w (calls st ++ [CUpdateFile file_path message content sha branch])
           (log st
              ++ info_records ("Successfully updated " +:+ quoted file_path
                                 +:+ " in branch " +:+ quoted branch +:+ ".") r
              ++ error_records (fun e => "Failed to update file " +:+ quoted file_path
                                           +:+ ": " +:+ exn_str e) r))).
Proof.
  unfold update_repo_file. rewrite try_github_run, request_then_info.
  destruct (gh_update_file _ _ _ _ _ _ _) as [[[]|e] w]; cbn [world calls log];
    by rewrite <- ?app_assoc.
Qed.

(** X2.  [create_branch] looks the default branch up and creates
    [refs/heads/<branch>] at the sha it was given.  When the lookup raises,
    no creation is sent.  The outcome is the outcome of the last call sent,
    with one INFO record for a success and one ERROR record for a
    [GithubException]. *)
Theorem create_branch_outcome (repo : Repository) (branch : string) (st : state W) :
  let ref := "refs/heads/" +:+ branch in
  let failed := fun e => "Failed to create branch " +:+ quoted branch
                           +:+ ": " +:+ exn_str e in
  create_branch repo branch st
  = (let (r1, w1) := gh_get_branch repo (default_branch repo) (world st) in
     match r1 with
     | Raise e =>
         (Raise e,
          State w1 (calls st ++ [CGetBranch (default_branch repo)])
            (log st ++ error_records failed (@Raise unit e)))
     | Ok sha =>
         let (r2, w2) := gh_create_git_ref repo ref sha w1 in
         (r2,
          State w2
            (calls st ++ [CGetBranch (default_branch repo); CCreateGitRef ref sha])
            (log st
               ++ info_records ("Successfully created branch " +:+ quoted branch
                                  +:+ ".") r2
               ++ error_records failed r2))
     end).
Proof.
  intros ref failed. unfold create_branch. rewrite try_github_run.
  rewrite bind_run. unfold request at 1.
  destruct (gh_get_branch _ _ _) as [[sha|e] w1]; [|done].
  fold ref. rewrite request_then_info. cbn [world calls log].
  destruct (gh_create_git_ref _ _ _ _) as [[[]|e] w2]; cbn [world calls log];
    by rewrite <- ?app_assoc.
Qed.

(** X3.  [create_pr] sends one [create_pull], from the branch into the
    default branch of the repository; its outcome is the outcome of that
    call, with one INFO record for a success and one ERROR record for a
    [GithubException]. *)
Theorem create_pr_outcome (repo : Repository) (branch title : string)
    (st : state W) :
  create_pr repo branch title st
  = (let (r, w) := gh_create_pull repo (default_branch repo) branch title (world st) in
     (r, State w (calls st ++ [CCreatePull (default_branch repo) branch title])
           (log st
              ++ info_records ("Successfully created Pull Request " +:+ quoted title
                                 +:+ " from branch " +:+ quoted branch +:+ ".") r
              ++ error_records (fun e => "Failed to create Pull Request: "
                                           +:+ exn_str e) r))).
Proof.
  unfold create_pr. rewrite try_github_run, request_then_info.
  destruct (gh_create_pull _ _ _ _ _) as [[[]|e] w]; cbn [world calls log];
    by rewrite <- ?app_assoc.
Qed.

(** X4.  With [GITHUB_TOKEN] in the environment.  An empty token fails
    the assertion of [Auth.Token]: [get_repo] raises [AssertionError],
    sends nothing and logs nothing.  Otherwise it sends one lookup of the
    repository, under that token; its outcome is the outcome of the
    lookup, and a [GithubException] leaves one ERROR record.  Nothing is
    logged for a success. *)
Theorem get_repo_with_token (env : gmap string string) (token name : string)
    (st : state W) :
  env !! "GITHUB_TOKEN" = Some token →
  get_repo env name st
  = (if String.eqb token EmptyString
     then (Raise (Exn AssertionError EmptyString), st)
     else
       let (r, w) := gh_get_repo token name (world st) in
       (r, State w (calls st ++ [CGetRepo name])
             (log st ++ error_records (fun e => "Failed to retrieve repository "
                                                  +:+ quoted name +:+ ": "
                                                  +:+ exn_str e) r))).
Proof.
  intros E. unfold get_repo. rewrite try_github_run, bind_run.
  unfold lift, environ_getitem. rewrite E. rewrite bind_run. unfold auth_token.
  destruct (String.eqb token EmptyString).
  - destruct st as [w c l]. cbn. by rewrite app_nil_r.
  - unfold request. by destruct (gh_get_repo token name (world st)) as [r w].
Qed.

End Wrappers.

(** ** One manifest *)

Section OneManifest.
Context {W : Type} {github : GithubApi W} {yaml : YamlCodec}.

(** [modify_application], step by step. *)
Lemma modify_application_run repo env service branch key (st : state W) :
  let read := CGetContents (manifest_path env service) (Some (default_branch repo)) in
  modify_application repo env service branch key st
  = (let (r, w) := gh_get_contents repo (manifest_path env service)
                     (Some (default_branch repo)) (world st) in
     let st1 := State w (calls st ++ [read]) (log st) in
     match r with
     | Raise e => (Raise e, st1)
     | Ok c =>
         match as_file c with
         | Raise e => (Raise e, st1)
         | Ok f =>
             match edit_manifest (cf_decoded_content f) key with
             | Raise e => (Raise e, st1)
             | Ok out =>
                 update_repo_file repo (cf_path f) (commit_message env service)
                   out branch (cf_sha f) st1
             end
         end
     end).
Proof.
  intros read. unfold modify_application, request, lift. rewrite bind_run.
  destruct (gh_get_contents _ _ _ _) as [[c|e] w]; [|done].
  rewrite bind_run. destruct (as_file c) as [f|e]; [|done].
  rewrite bind_run. by destruct (edit_manifest (cf_decoded_content f) key).
Qed.

Lemma update_repo_file_run repo p m c b sha (st : state W) r st' :
  update_repo_file repo p m c b sha st = (r, st') →
  calls st' = calls st ++ [CUpdateFile p m c sha b] ∧
  log st'
  = log st
      ++ info_records ("Successfully updated " +:+ quoted p +:+ " in branch "
                         +:+ quoted b +:+ ".") r
      ++ error_records (fun e => "Failed to update file " +:+ quoted p +:+ ": "
                                   +:+ exn_str e) r.
Proof.
  unfold update_repo_file. rewrite try_github_run, request_then_info.
  destruct (gh_update_file _ _ _ _ _ _ _) as [[[]|e] w]; cbn [world calls log];
    intros [= <- <-]; cbn [calls log]; by rewrite <- ?app_assoc.
Qed.

(** X5.  A call of [modify_application] that returns has read the
    manifest of the service at the default branch and then sent one update:
    to the path and against the sha of the file it read, on the working
    branch, with the message [Modify <service> in <env>.] and the text of
    the edit as content.  The log has gained one INFO record. *)
Theorem modify_application_success (repo : Repository)
    (env service branch : string) (key : option string) (st st' : state W) :
  modify_application repo env service branch key st = (Ok tt, st') →
  ∃ f out,
    (gh_get_contents repo (manifest_path env service)
       (Some (default_branch repo)) (world st)).1 = Ok (File f) ∧
    edit_manifest (cf_decoded_content f) key = Ok out ∧
    calls st'
    = calls st
        ++ [CGetContents (manifest_path env service) (Some (default_branch repo));
            CUpdateFile (cf_path f) (commit_message env service) out (cf_sha f)
              branch] ∧
    log st'
    = log st ++ [(INFO, "Successfully updated " +:+ quoted (cf_path f)
                          +:+ " in branch " +:+ quoted branch +:+ ".")].
Proof.
  rewrite modify_application_run.
  destruct (gh_get_contents _ _ _ _) as [[c|e] w]; cbv zeta; [|intros [=]].
  cbn [fst]. destruct c as [f|l]; cbn [as_file]; [|intros [=]].
  destruct (edit_manifest (cf_decoded_content f) key) as [out|e] eqn:E;
    [|intros [=]].
  intros U. apply update_repo_file_run in U as [C L]. cbn [calls log] in C, L.
  exists f, out. split; [done|]. split; [done|].
  rewrite C, L, <- app_assoc. done.
Qed.

(** X6.  A call of [modify_application] that raises either failed before
    the update (the read raised, a directory was read, or the manifest
    could not be decoded, parsed or edited): then only the read was sent
    and nothing was logged, not even for a [GithubException] of the read.
    Or the update itself raised: then the read and the update were sent,
    and an ERROR record was left if the exception is a
    [GithubException]. *)
Theorem modify_application_failure (repo : Repository)
    (env service branch : string) (key : option string) (st st' : state W)
    (e : exn) :
  let read := CGetContents (manifest_path env service) (Some (default_branch repo)) in
  modify_application repo env service branch key st = (Raise e, st') →
  (calls st' = calls st ++ [read] ∧ log st' = log st) ∨
  (∃ f out,
     (gh_get_contents repo (manifest_path env service)
        (Some (default_branch repo)) (world st)).1 = Ok (File f) ∧
     edit_manifest (cf_decoded_content f) key = Ok out ∧
     calls st'
     = calls st
         ++ [read;
             CUpdateFile (cf_path f) (commit_message env service) out (cf_sha f)
               branch] ∧
     log st'
     = log st
         ++ error_records (fun e => "Failed to update file " +:+ quoted (cf_path f)
                                      +:+ ": " +:+ exn_str e) (@Raise unit e)).
Proof.
  intros read. rewrite modify_application_run. fold read.
  destruct (gh_get_contents _ _ _ _) as [[c|e0] w]; cbn [fst].
  2:{ intros [= <- <-]. by left. }
  destruct c as [f|l]; cbn [as_file].
  2:{ intros [= <- <-]. by left. }
  destruct (edit_manifest (cf_decoded_content f) key) as [out|e0] eqn:E.
  2:{ intros [= <- <-]. by left. }
  intros U. apply update_repo_file_run in U as [C L]. cbn [calls log] in C, L.
  right. exists f, out. split; [done|]. split; [done|].
  rewrite C, L, <- app_assoc. done.
Qed.

End OneManifest.

(** ** More on the edit of lines 59-62 *)


(** X8.  A document that is no mapping (an empty file parses to [None]),
    or whose [metadata] is there and is no mapping: the subscripts of
    lines 60 and 62 raise [TypeError], whatever the key. *)
Theorem document_that_is_no_mapping (app : pyval) (key : option string) :
  (∀ root, app ≠ VDict root) ∨
  (∃ root x, app = VDict root ∧ dict_get (KStr "metadata") root = Some x ∧
             ∀ md, x ≠ VDict md) →
  ∃ e, mutate_annotations app key = Raise e ∧ exn_kind e = TypeError.
Proof.
  unfold mutate_annotations. intros [N | (root & x & -> & E & N)].
  - destruct app as [| | | | |root]; cbn; try by eexists. by destruct (N root).
  - cbn. rewrite E. cbn.
    destruct x as [| | | | |md]; cbn; try by eexists. by destruct (N md).
Qed.

(** X10.  The edit is idempotent on documents: applied, with the same
    key, to the document it made, it succeeds and leaves that document as
    it is.  This holds for both branches, the assignment and the pop. *)
Theorem edit_twice_is_edit_once (app app' : pyval) (key : option string) :
  mutate_annotations app key = Ok app' →
  mutate_annotations app' key = Ok app'.
Proof.
  intros M. destruct (mutate_annotations_inv _ _ _ M) as [ann A].
  apply annotations_inv in A as (root & md & -> & E1 & E2).
  rewrite (mutate_annotations_dict _ _ _ _ E1 E2) in M. injection M as <-.
  set (ann1 := if truthy key then _ else _).
  set (md1 := dict_setitem (KStr "annotations") (VDict ann1) md).
  assert (dict_get (KStr "metadata") (dict_setitem (KStr "metadata") (VDict md1) root)
          = Some (VDict md1)) as G1 by apply dict_get_setitem_eq.
  assert (dict_get (KStr "annotations") md1 = Some (VDict ann1)) as G2
    by apply dict_get_setitem_eq.
  rewrite (mutate_annotations_dict _ _ _ _ G1 G2).
  assert ((if truthy key
           then dict_setitem (KStr (default EmptyString key)) (VStr "*") ann1
           else dict_pop (key_of_arg key) ann1) = ann1) as ->.
  { unfold ann1. destruct (truthy key).
    - apply dict_setitem_id, dict_get_setitem_eq.
    - apply dict_pop_absent. by rewrite dict_get_pop, key_eqb_refl. }
  by rewrite (dict_setitem_id _ _ _ G2), (dict_setitem_id _ _ _ G1).
Qed.

(** ** Services, keys and files *)

Lemma string_length_app a b :
  String.length (a +:+ b) = String.length a + String.length b.
Proof. induction a as [|c a IH]; simpl; [done|]. by rewrite IH. Qed.

Lemma string_app_inj_l a b s : a +:+ s = b +:+ s → a = b.
Proof.
  revert b. induction a as [|c a IH]; intros [|d b] E; simpl in E.
  - done.
  - apply (f_equal String.length) in E.
    rewrite ?string_length_app in E. simpl in E.
    rewrite ?string_length_app in E. lia.
  - apply (f_equal String.length) in E.
    rewrite ?string_length_app in E. simpl in E.
    rewrite ?string_length_app in E. lia.
  - injection E as -> E. by rewrite (IH _ E).
Qed.

Lemma ignore_tags_key_inj a b : ignore_tags_key a = ignore_tags_key b → a = b.
Proof.
  unfold ignore_tags_key. intros E.
  apply (String.app_inj "argocd-image-updater.argoproj.io/") in E.
  by apply string_app_inj_l in E.
Qed.

(** X11.  Two services never share their ignore-tags key, their manifest
    path in an environment, or their commit message. *)
Theorem services_are_told_apart (env a b : string) :
  a ≠ b →
  ignore_tags_key a ≠ ignore_tags_key b ∧
  manifest_path env a ≠ manifest_path env b ∧
  commit_message env a ≠ commit_message env b.
Proof.
  intros N. split; [|split]; intros E; apply N.
  - by apply ignore_tags_key_inj.
  - unfold manifest_path in E. apply (String.app_inj "envs/") in E.
    apply (String.app_inj env) in E. apply (String.app_inj "/") in E.
    by apply string_app_inj_l in E.
  - unfold commit_message in E. apply (String.app_inj "Modify ") in E.
    by apply string_app_inj_l in E.
Qed.

(** X12.  Pausing one service leaves the ignore-tags annotation of every
    other service as the manifest has it, present or absent. *)
Theorem pause_leaves_other_services_alone (a b : string) (app app' : pyval) :
  a ≠ b →
  mutate_annotations app (Some (ignore_tags_key a)) = Ok app' →
  lookup_path (annotation_path (KStr (ignore_tags_key b))) app'
  = lookup_path (annotation_path (KStr (ignore_tags_key b))) app.
Proof.
  intros N M. destruct (mutate_annotations_inv _ _ _ M) as [ann A].
  apply annotations_inv in A as (root & md & -> & E1 & E2).
  pose proof (mutate_annotations_dict root md ann (Some (ignore_tags_key a))
                E1 E2) as M'.
  rewrite truthy_ignore_tags_key in M'. cbn [default] in M'.
  rewrite M' in M. injection M as <-.
  unfold annotation_path, annotations_path. cbn [app lookup_path].
  rewrite !dict_get_setitem_eq, E1, E2. rewrite dict_get_setitem.
  replace (key_eqb (KStr (ignore_tags_key b)) (KStr (ignore_tags_key a))) with false;
    [done|].
  symmetry. apply not_true_is_false. rewrite key_eqb_str. intros E.
  apply N, ignore_tags_key_inj. congruence.
Qed.

(** ** More on the batch *)

Section Batch.
Context {W : Type} {github : GithubApi W} {yaml : YamlCodec}.

Lemma create_pr_calls repo branch title (st : state W) r st' :
  create_pr repo branch title st = (r, st') →
  calls st' = calls st ++ [CCreatePull (default_branch repo) branch title].
Proof.
  unfold create_pr. rewrite try_github_run, request_then_info.
  destruct (gh_create_pull _ _ _ _ _) as [[[]|e] w]; cbn [world calls log];
    by intros [= <- <-].
Qed.

Lemma create_branch_calls repo branch (st : state W) r st' :
  create_branch repo branch st = (r, st') →
  (calls st' = calls st ++ [CGetBranch (default_branch repo)] ∧ r ≠ Ok tt) ∨
  ∃ sha, calls st'
         = calls st ++ [CGetBranch (default_branch repo);
                        CCreateGitRef ("refs/heads/" +:+ branch) sha].
Proof.
  unfold create_branch. rewrite try_github_run, bind_run. unfold request at 1.
  destruct (gh_get_branch _ _ _) as [[sha|e] w1].
  2:{ intros [= <- <-]. by left. }
  rewrite request_then_info. cbn [world calls log].
  destruct (gh_create_git_ref _ _ _ _) as [[[]|e] w2]; cbn [world calls log];
    intros [= <- <-]; right; exists sha; cbn [calls]; by rewrite <- app_assoc.
Qed.

(** X13.  [handle_services] with an action other than [pause] and
    [resume] goes through the listing and does nothing: it returns, and
    the remote state, the calls and the log are what they were, however
    many services are listed. *)
Theorem handle_services_other_action (repo : Repository) (env branch action : string)
    (entries : list ContentFile) (st : state W) :
  action ≠ "pause" → action ≠ "resume" →
  handle_services repo env (Dir entries) branch action st = (Ok tt, st).
Proof.
  intros N1 N2. unfold handle_services. rewrite bind_run. cbn [lift py_iter].
  induction entries as [|svc entries IH]; [done|].
  cbn [for_each]. rewrite bind_run. unfold handle_service at 1.
  apply String.eqb_neq in N1, N2. by rewrite N1, N2.
Qed.

(** X14.  A [pause] or [resume] batch that returns: the branch was
    created, the directory of the environment was listed, every listed
    service was read once and updated once, in the order of the listing,
    and then one pull request was opened, titled with the capitalized
    action and the environment, from the branch into the default branch;
    that call is the last one of the run. *)
Theorem successful_batch (repo : Repository) (args : Namespace)
    (branch_name : string) (st st' : state W) :
  let env := py_str (target_env args) in
  let act := py_str (action args) in
  let title := capitalize act +:+ " the " +:+ env +:+ " environment." in
  action args = Some "pause" ∨ action args = Some "resume" →
  main_actions repo args branch_name st = (Ok tt, st') →
  ∃ st1 st2 entries,
    create_branch repo branch_name st = (Ok tt, st1) ∧
    request (CGetContents ("envs/" +:+ env) None)
      (gh_get_contents repo ("envs/" +:+ env) None) st1 = (Ok (Dir entries), st2) ∧
    read_paths (calls st')
    = read_paths (calls st) ++ map (fun s => manifest_path env (cf_name s)) entries ∧
    update_messages (calls st')
    = update_messages (calls st)
        ++ map (fun s => commit_message env (cf_name s)) entries ∧
    pull_titles (calls st') = pull_titles (calls st) ++ [title] ∧
    last (calls st') = Some (CCreatePull (default_branch repo) branch_name title).
Proof.
  intros env act title A. unfold main_actions. rewrite bind_run.
  destruct (create_branch repo branch_name st) as [[[]|e] st1] eqn:B; [|intros [=]].
  replace (bool_decide (action args = Some "pause")
           || bool_decide (action args = Some "resume")) with true.
  2:{ destruct A as [-> | ->]; done. }
  rewrite bind_run. fold env.
  destruct (request _ _ st1) as [[c|e] st2] eqn:L; [|intros [=]].
  rewrite bind_run. unfold handle_services. rewrite bind_run.
  destruct c as [f|entries]; cbn [lift py_iter]; [intros [=]|].
  fold act.
  destruct (for_each entries (handle_service repo env branch_name act) st2)
    as [[[]|e] st3] eqn:F; [|intros [=]].
  fold title. intros P.
  assert (act = "pause" ∨ act = "resume") as A'.
  { unfold act. destruct A as [-> | ->]; auto. }
  destruct (create_branch_trace _ _ _ _ _ B) as (R1 & U1 & P1).
  assert (calls st2 = calls st1 ++ [CGetContents ("envs/" +:+ env) None]) as C2.
  { revert L. unfold request.
    destruct (gh_get_contents _ _ _ _) as [? ?]. by intros [= _ <-]. }
  assert (read_paths (calls st2) = read_paths (calls st1) ∧
          update_messages (calls st2) = update_messages (calls st1) ∧
          pull_titles (calls st2) = pull_titles (calls st1)) as (R2 & U2 & P2).
  { rewrite C2. project_calls. done. }
  destruct (for_each_service_trace _ _ _ _ _ _ _ A' F) as (R3 & U3 & P3).
  pose proof (create_pr_calls _ _ _ _ _ _ P) as C4.
  exists st1, st2, entries. split; [done|]. split; [done|].
  rewrite C4. project_calls. rewrite last_snoc.
  fold (read_paths (calls st3)) (update_messages (calls st3))
    (pull_titles (calls st3)).
  by rewrite R3, U3, P3, R2, U2, P2, R1, U1, P1.
Qed.

(** X15.  A [pause] or [resume] batch over an environment that lists no
    service: nothing is read or updated, and the pull request is asked for
    all the same; the run ends as that call ends. *)
Theorem empty_batch_still_opens_the_pull_request (repo : Repository)
    (args : Namespace) (branch_name : string) (st st1 st2 : state W) :
  let env := py_str (target_env args) in
  let title := capitalize (py_str (action args)) +:+ " the " +:+ env
                 +:+ " environment." in
  action args = Some "pause" ∨ action args = Some "resume" →
  create_branch repo branch_name st = (Ok tt, st1) →
  request (CGetContents ("envs/" +:+ env) None)
    (gh_get_contents repo ("envs/" +:+ env) None) st1 = (Ok (Dir []), st2) →
  main_actions repo args branch_name st = create_pr repo branch_name title st2 ∧
  ∀ r st', main_actions repo args branch_name st = (r, st') →
    read_paths (calls st') = read_paths (calls st) ∧
    update_messages (calls st') = update_messages (calls st) ∧
    pull_titles (calls st') = pull_titles (calls st) ++ [title].
Proof.
  intros env title A B L.
  assert (main_actions repo args branch_name st
          = create_pr repo branch_name title st2) as E.
  { unfold main_actions. rewrite bind_run, B.
    replace (bool_decide (action args = Some "pause")
             || bool_decide (action args = Some "resume")) with true.
    2:{ destruct A as [-> | ->]; done. }
    rewrite bind_run. fold env. rewrite L. done. }
  split; [exact E|]. intros r st'. rewrite E. intros P.
  destruct (create_branch_trace _ _ _ _ _ B) as (R1 & U1 & P1).
  assert (calls st2 = calls st1 ++ [CGetContents ("envs/" +:+ env) None]) as C2.
  { revert L. unfold request.
    destruct (gh_get_contents _ _ _ _) as [? ?]. by intros [= _ <-]. }
  rewrite (create_pr_calls _ _ _ _ _ _ P), C2. project_calls.
  fold (read_paths (calls st1)) (update_messages (calls st1))
    (pull_titles (calls st1)).
  by rewrite R1, U1, P1.
Qed.

(** X16.  When the branch cannot be created, whatever the action, the
    run ends with the exception of [create_branch]: the directory is not
    listed, no manifest is read or updated and no pull request is opened;
    the calls of the run are the lookup of the default branch and, when
    that answered, the refused creation. *)
Theorem branch_failure_ends_the_run (repo : Repository) (args : Namespace)
    (branch_name : string) (st st1 : state W) (e : exn) :
  create_branch repo branch_name st = (Raise e, st1) →
  main_actions repo args branch_name st = (Raise e, st1) ∧
  (calls st1 = calls st ++ [CGetBranch (default_branch repo)] ∨
   ∃ sha, calls st1
          = calls st ++ [CGetBranch (default_branch repo);
                         CCreateGitRef ("refs/heads/" +:+ branch_name) sha]).
Proof.
  intros B. split.
  - unfold main_actions. by rewrite bind_run, B.
  - destruct (create_branch_calls _ _ _ _ _ B) as [[C _]|C]; auto.
Qed.

(** X17.  A [pause] or [resume] run whose environment path is a file and
    no directory: the loop of [handle_services] cannot iterate over the one
    [ContentFile] it is given and raises [TypeError]; the run ends there,
    right after the listing, with no manifest read or updated and no pull
    request. *)
Theorem listing_that_is_a_file (repo : Repository) (args : Namespace)
    (branch_name : string) (f : ContentFile) (st st1 st2 : state W) :
  let env := py_str (target_env args) in
  action args = Some "pause" ∨ action args = Some "resume" →
  create_branch repo branch_name st = (Ok tt, st1) →
  request (CGetContents ("envs/" +:+ env) None)
    (gh_get_contents repo ("envs/" +:+ env) None) st1 = (Ok (File f), st2) →
  main_actions repo args branch_name st
  = (Raise (Exn TypeError "'ContentFile' object is not iterable"), st2) ∧
  read_paths (calls st2) = read_paths (calls st) ∧
  update_messages (calls st2) = update_messages (calls st) ∧
  pull_titles (calls st2) = pull_titles (calls st).
Proof.
  intros env A B L. split.
  - unfold main_actions. rewrite bind_run, B.
    replace (bool_decide (action args = Some "pause")
             || bool_decide (action args = Some "resume")) with true.
    2:{ destruct A as [-> | ->]; done. }
    rewrite bind_run. fold env. rewrite L. done.
  - destruct (create_branch_trace _ _ _ _ _ B) as (R1 & U1 & P1).
    assert (calls st2 = calls st1 ++ [CGetContents ("envs/" +:+ env) None]) as C2.
    { revert L. unfold request.
      destruct (gh_get_contents _ _ _ _) as [? ?]. by intros [= _ <-]. }
    rewrite C2. project_calls.
    fold (read_paths (calls st1)) (update_messages (calls st1))
      (pull_titles (calls st1)).
    by rewrite R1, U1, P1.
Qed.

End Batch.

(** X18.  [resume] does not undo [pause]: on a manifest whose annotations
    are a mapping without a null key, the edit of [pause] for a service
    followed by the edit of the [resume] path gives the document that
    [pause] alone gives, the ignore-tags annotation of the service still
    set. *)
Theorem resume_after_pause_is_pause (service : string) (app : pyval) (ann : pydict) :
  lookup_path annotations_path app = Some (VDict ann) →
  dict_get KNone ann = None →
  ∃ paused,
    mutate_annotations app (Some (ignore_tags_key service)) = Ok paused ∧
    mutate_annotations paused None = Ok paused ∧
    lookup_path (annotation_path (KStr (ignore_tags_key service))) paused
    = Some (VStr "*").
Proof.
  intros A N. apply annotations_inv in A as (root & md & -> & E1 & E2).
  pose proof (mutate_annotations_dict root md ann (Some (ignore_tags_key service))
                E1 E2) as M.
  rewrite truthy_ignore_tags_key in M. cbn [default] in M.
  eexists. split; [exact M|]. split.
  - erewrite mutate_annotations_dict; [|apply dict_get_setitem_eq..].
    cbn [truthy key_of_arg]. rewrite dict_pop_absent.
    2:{ rewrite dict_get_setitem. cbn [key_eqb key_num]. exact N. }
    rewrite (dict_setitem_id (KStr "annotations")) by apply dict_get_setitem_eq.
    by rewrite (dict_setitem_id (KStr "metadata")) by apply dict_get_setitem_eq.
  - unfold annotation_path, annotations_path. cbn [app lookup_path].
    by rewrite !dict_get_setitem_eq.
Qed.

(** ** More runs on the test double *)

Lemma get_repo_with_token_witness :
  get_repo Fake.token "antonputra/k8s" (Fake.start Sample.a_and_b)
  = (Ok Fake.k8s, State Sample.a_and_b [CGetRepo "antonputra/k8s"] []) ∧
  get_repo {["GITHUB_TOKEN" := EmptyString]} "antonputra/k8s"
    (Fake.start Sample.a_and_b)
  = (Raise (Exn AssertionError EmptyString), Fake.start Sample.a_and_b).
Proof.
  split.
  - rewrite (get_repo_with_token Fake.token "ghp_secret" "antonputra/k8s"
               (Fake.start Sample.a_and_b)).
    + reflexivity.
    + vm_compute. reflexivity.
  - rewrite (get_repo_with_token {["GITHUB_TOKEN" := EmptyString]} EmptyString
               "antonputra/k8s" (Fake.start Sample.a_and_b)).
    + reflexivity.
    + vm_compute. reflexivity.
Defined.

Lemma modify_application_success_witness :
  let st := Fake.start (Sample.checkout_only Sample.unpaused) in
  let key := Some (ignore_tags_key "checkout") in
  let st' := (modify_application (yaml := Sample.yaml) Fake.k8s "staging" "checkout"
                Sample.branch key st).2 in
  ∃ f out,
    (gh_get_contents Fake.k8s (manifest_path "staging" "checkout")
       (Some (default_branch Fake.k8s)) (world st)).1 = Ok (File f) ∧
    edit_manifest (yaml := Sample.yaml) (cf_decoded_content f) key = Ok out ∧
    calls st'
    = calls st
        ++ [CGetContents (manifest_path "staging" "checkout")
              (Some (default_branch Fake.k8s));
            CUpdateFile (cf_path f) (commit_message "staging" "checkout") out
              (cf_sha f) Sample.branch] ∧
    log st'
    = log st ++ [(INFO, "Successfully updated " +:+ quoted (cf_path f)
                          +:+ " in branch " +:+ quoted Sample.branch +:+ ".")].
Proof.
  intros st key st'.
  apply (modify_application_success (yaml := Sample.yaml) Fake.k8s "staging"
           "checkout" Sample.branch key st st').
  vm_compute. reflexivity.
Defined.

Lemma modify_application_failure_witness :
  let st := Fake.start Sample.a_and_b in
  let key := Some (ignore_tags_key "b") in
  let st' := (modify_application (yaml := Sample.yaml) Fake.k8s "staging" "b"
                Sample.branch key st).2 in
  let read := CGetContents (manifest_path "staging" "b")
                (Some (default_branch Fake.k8s)) in
  (calls st' = calls st ++ [read] ∧ log st' = log st) ∨
  (∃ f out,
     (gh_get_contents Fake.k8s (manifest_path "staging" "b")
        (Some (default_branch Fake.k8s)) (world st)).1 = Ok (File f) ∧
     edit_manifest (yaml := Sample.yaml) (cf_decoded_content f) key = Ok out ∧
     calls st'
     = calls st
         ++ [read;
             CUpdateFile (cf_path f) (commit_message "staging" "b") out (cf_sha f)
               Sample.branch] ∧
     log st'
     = log st
         ++ error_records (fun e => "Failed to update file " +:+ quoted (cf_path f)
                                      +:+ ": " +:+ exn_str e)
              (@Raise unit Fake.conflict)).
Proof.
  intros st key st' read.
  apply (modify_application_failure (yaml := Sample.yaml) Fake.k8s "staging" "b"
           Sample.branch key st st' Fake.conflict).
  vm_compute. reflexivity.
Defined.


Lemma document_that_is_no_mapping_witness :
  ∃ e, mutate_annotations Odd.empty_file (Some (ignore_tags_key "checkout")) = Raise e ∧
    exn_kind e = TypeError.
Proof.
  apply (document_that_is_no_mapping Odd.empty_file).
  left. intros root. discriminate.
Defined.

Lemma edit_twice_is_edit_once_witness :
  mutate_annotations
    (Fake.manifest [(KStr "owner", VStr "shop"); (KStr "contact", VStr "ops");
                    (Sample.ignore_checkout, VStr "*")])
    (Some (ignore_tags_key "checkout"))
  = Ok (Fake.manifest [(KStr "owner", VStr "shop"); (KStr "contact", VStr "ops");
                       (Sample.ignore_checkout, VStr "*")]).
Proof.
  apply (edit_twice_is_edit_once Sample.unpaused).
  reflexivity.
Defined.

Lemma services_are_told_apart_witness :
  ignore_tags_key "a" ≠ ignore_tags_key "b" ∧
  manifest_path "staging" "a" ≠ manifest_path "staging" "b" ∧
  commit_message "staging" "a" ≠ commit_message "staging" "b".
Proof.
  apply (services_are_told_apart "staging" "a" "b"). discriminate.
Defined.

Lemma pause_leaves_other_services_alone_witness :
  lookup_path (annotation_path (KStr (ignore_tags_key "checkout"))) Odd.two_paused
  = Some (VStr "v1").
Proof.
  rewrite (pause_leaves_other_services_alone "cart" "checkout"
             (Fake.manifest [(KStr (ignore_tags_key "cart"), VStr "old");
                             (KStr (ignore_tags_key "checkout"), VStr "v1")])
             Odd.two_paused).
  - reflexivity.
  - discriminate.
  - reflexivity.
Defined.

Lemma handle_services_other_action_witness :
  let st := Fake.start Sample.a_and_b in
  handle_services (yaml := Sample.yaml) Fake.k8s "staging"
    (Dir [Fake.entry "staging" "a"; Fake.entry "staging" "b"]) Sample.branch "push" st
  = (Ok tt, st).
Proof.
  intros st.
  apply (handle_services_other_action (yaml := Sample.yaml)); discriminate.
Defined.

Lemma successful_batch_witness :
  let st := Fake.start Odd.a_and_b in
  let st' := (main_actions (yaml := Sample.yaml) Fake.k8s (Fake.cli "pause" "staging")
                Sample.branch st).2 in
  update_messages (calls st') = ["Modify a in staging."; "Modify b in staging."] ∧
  pull_titles (calls st') = ["Pause the staging environment."] ∧
  last (calls st')
  = Some (CCreatePull "main" Sample.branch "Pause the staging environment.").
Proof.
  intros st st'.
  destruct (successful_batch (yaml := Sample.yaml) Fake.k8s
              (Fake.cli "pause" "staging") Sample.branch st st')
    as (st1 & st2 & entries & B & L & _ & U & P & Z).
  - left. reflexivity.
  - vm_compute. reflexivity.
  - split; [|split; [exact P|exact Z]].
    vm_compute. reflexivity.
Defined.

Lemma empty_batch_still_opens_the_pull_request_witness :
  let st := Fake.start Odd.no_service in
  let run := main_actions (yaml := Sample.yaml) Fake.k8s (Fake.cli "resume" "staging")
               "resume-staging-2024-01-01" st in
  update_messages (calls run.2) = [] ∧
  pull_titles (calls run.2) = ["Resume the staging environment."].
Proof.
  intros st run.
  pose (st1 := (create_branch Fake.k8s "resume-staging-2024-01-01" st).2).
  pose (st2 := (request (CGetContents "envs/staging" None)
                  (gh_get_contents Fake.k8s "envs/staging" None) st1).2).
  destruct (empty_batch_still_opens_the_pull_request (yaml := Sample.yaml) Fake.k8s
              (Fake.cli "resume" "staging") "resume-staging-2024-01-01" st st1 st2)
    as [_ T].
  - right. reflexivity.
  - vm_compute. reflexivity.
  - vm_compute. reflexivity.
  - destruct (T run.1 run.2) as (_ & U & P).
    + apply surjective_pairing.
    + split; [exact U|exact P].
Defined.

Lemma branch_failure_ends_the_run_witness :
  let st := Fake.start Sample.a_and_b in
  main_actions (yaml := Sample.yaml) Fake.k8s (Fake.cli "pause" "staging") "main" st
  = (Raise Fake.exists_already,
     (create_branch Fake.k8s "main" st).2).
Proof.
  intros st.
  apply (branch_failure_ends_the_run (yaml := Sample.yaml) Fake.k8s
           (Fake.cli "pause" "staging") "main" st).
  vm_compute. reflexivity.
Defined.

Lemma listing_that_is_a_file_witness :
  let st := Fake.start (Sample.checkout_only Sample.unpaused) in
  let args := Fake.cli "pause" "staging/checkout/application.yaml" in
  (main_actions (yaml := Sample.yaml) Fake.k8s args Sample.branch st).1
  = Raise (Exn TypeError "'ContentFile' object is not iterable").
Proof.
  intros st args.
  pose (st1 := (create_branch Fake.k8s Sample.branch st).2).
  pose (st2 := (request (CGetContents "envs/staging/checkout/application.yaml" None)
                  (gh_get_contents Fake.k8s
                     "envs/staging/checkout/application.yaml" None) st1).2).
  destruct (listing_that_is_a_file (yaml := Sample.yaml) Fake.k8s args Sample.branch
              (Fake.file_of "staging" "checkout" Sample.unpaused) st st1 st2)
    as [E _].
  - left. reflexivity.
  - vm_compute. reflexivity.
  - vm_compute. reflexivity.
  - by rewrite E.
Defined.

Lemma resume_after_pause_is_pause_witness :
  ∃ paused,
    mutate_annotations Sample.unpaused (Some (ignore_tags_key "checkout")) = Ok paused ∧
    mutate_annotations paused None = Ok paused ∧
    lookup_path (annotation_path Sample.ignore_checkout) paused = Some (VStr "*").
Proof.
  apply (resume_after_pause_is_pause "checkout" Sample.unpaused
           [(KStr "owner", VStr "shop"); (KStr "contact", VStr "ops")]).
  - reflexivity.
  - reflexivity.
Defined.

(** ** Documents with shared objects: the edit in place *)

Lemma entries_get_set k' k x d :
  Aliased.entries_get k' (Aliased.entries_set k x d)
  = if key_eqb k' k then Some x else Aliased.entries_get k' d.
Proof.
  induction d as [|[k0 v0] d IH]; simpl; [done|].
  destruct (key_eqb k k0) eqn:E; simpl.
  - rewrite (key_eqb_congr _ _ k' E). by destruct (key_eqb k' k0).
  - rewrite IH. destruct (key_eqb k' k0) eqn:E0; [|done].
    destruct (key_eqb k' k) eqn:E1; [|done].
    rewrite key_eqb_sym, (key_eqb_congr _ _ k E0), E in E1. done.
Qed.

Lemma entries_keys_set k x d :
  map fst (Aliased.entries_set k x d)
  = if Aliased.entries_get k d is Some _ then map fst d else map fst d ++ [k].
Proof.
  induction d as [|[k0 v0] d IH]; simpl; [done|].
  destruct (key_eqb k k0); simpl; [done|].
  rewrite IH. by destruct (Aliased.entries_get k d).
Qed.

Lemma entries_get_pop k' k d :
  Aliased.entries_get k' (Aliased.entries_pop k d)
  = if key_eqb k' k then None else Aliased.entries_get k' d.
Proof.
  unfold Aliased.entries_pop. induction d as [|[k0 v0] d IH]; simpl.
  - by destruct (key_eqb k' k).
  - destruct (key_eqb k k0) eqn:E.
    + rewrite filter_cons_False by (simpl; congruence).
      rewrite IH. rewrite <- (key_eqb_congr _ _ k' E). by destruct (key_eqb k' k).
    + rewrite filter_cons_True by done. simpl. rewrite IH.
      destruct (key_eqb k' k0) eqn:E0; [|done].
      destruct (key_eqb k' k) eqn:E1; [|done].
      rewrite key_eqb_sym, (key_eqb_congr _ _ k E0), E in E1. done.
Qed.

Lemma entries_keys_pop k d :
  map fst (Aliased.entries_pop k d)
  = filter (fun c => key_eqb k c = false) (map fst d).
Proof.
  unfold Aliased.entries_pop. induction d as [|[k0 v0] d IH]; [done|].
  cbn [map fst]. destruct (key_eqb k k0) eqn:E.
  - rewrite !filter_cons_False by (cbn; congruence). done.
  - rewrite !filter_cons_True by done. cbn. by rewrite IH.
Qed.

(** A path that never leaves the object [id] by the key [k] reads the
    same when that dict is replaced, in place, by one that agrees with it
    on every other key. *)
Lemma walk_from_frame (h : gmap nat Aliased.object) id d d' k p v :
  h !! id = Some (Aliased.ODict d) →
  (∀ c, key_eqb c k = false → Aliased.entries_get c d' = Aliased.entries_get c d) →
  Aliased.leaves_by_from id k h p v = false →
  Aliased.walk_from (<[id := Aliased.ODict d']> h) p v = Aliased.walk_from h p v.
Proof.
  intros H Same. revert v. induction p as [|[c|i] p IH]; intros v; [done|..].
  - destruct v as [| | | |id']; try done. cbn [Aliased.walk_from Aliased.leaves_by_from].
    destruct (decide (id' = id)) as [->|N].
    + rewrite lookup_insert_eq, H, Nat.eqb_refl. cbn [andb].
      destruct (key_eqb c k) eqn:C; [done|]. rewrite (Same _ C).
      destruct (Aliased.entries_get c d); [apply IH|done].
    + rewrite lookup_insert_ne by done.
      destruct (h !! id') as [[xs|d0]|]; try done.
      replace (Nat.eqb id' id) with false by (symmetry; by apply Nat.eqb_neq).
      cbn [andb]. destruct (Aliased.entries_get c d0); [apply IH|done].
  - destruct v as [| | | |id']; try done. cbn [Aliased.walk_from Aliased.leaves_by_from].
    destruct (decide (id' = id)) as [->|N].
    + by rewrite lookup_insert_eq, H.
    + rewrite lookup_insert_ne by done.
      destruct (h !! id') as [[xs|d0]|]; try done.
      destruct (xs !! i); [apply IH|done].
Qed.

(** A subscript by a name other than [k] reads the same after the dict
    [id] was changed under [k]. *)
Lemma getitem_frame (h : gmap nat Aliased.object) id d d' k v name :
  h !! id = Some (Aliased.ODict d) →
  (∀ c, key_eqb c k = false → Aliased.entries_get c d' = Aliased.entries_get c d) →
  key_eqb (KStr name) k = false →
  ∀ x, Aliased.getitem h v name = Ok x →
       Aliased.walk_from (<[id := Aliased.ODict d']> h) [SKey (KStr name)] v = Some x.
Proof.
  intros H Same N x. destruct v as [| | | |id']; try done.
  cbn [Aliased.getitem Aliased.walk_from].
  destruct (decide (id' = id)) as [->|Ne].
  - rewrite lookup_insert_eq, H, (Same _ N).
    destruct (Aliased.entries_get (KStr name) d); [|done]. by intros [= ->].
  - rewrite lookup_insert_ne by done. destruct (h !! id') as [[xs|d0]|]; try done.
    destruct (Aliased.entries_get (KStr name) d0); [|done]. by intros [= ->].
Qed.

Lemma walk_from_app h p q v :
  Aliased.walk_from h (p ++ q) v
  = match Aliased.walk_from h p v with
    | Some x => Aliased.walk_from h q x
    | None => None
    end.
Proof.
  revert v. induction p as [|[c|i] p IH]; intros v; [done|..];
    destruct v as [| | | |id]; try done; cbn [app Aliased.walk_from];
    destruct (h !! id) as [[xs|d]|]; try done.
  - destruct (Aliased.entries_get c d); [apply IH|done].
  - destruct (xs !! i); [apply IH|done].
Qed.

(** What the edit does to a document that has the annotations, as a
    mapping: the store is changed at the identity of that mapping. *)
Lemma mutate_annotations_in_place app md id d key :
  Aliased.getitem (Aliased.objects app) (Aliased.root app) "metadata" = Ok md →
  Aliased.getitem (Aliased.objects app) md "annotations" = Ok (Aliased.RObj id) →
  Aliased.objects app !! id = Some (Aliased.ODict d) →
  Aliased.mutate_annotations app key
  = Ok (Aliased.Document
          (<[id := Aliased.ODict
                     (if truthy key
                      then Aliased.entries_set (KStr (default EmptyString key))
                             (Aliased.RStr "*") d
                      else Aliased.entries_pop (key_of_arg key) d)]>
             (Aliased.objects app))
          (Aliased.root app)).
Proof.
  intros E1 E2 H. unfold Aliased.mutate_annotations. rewrite E1. cbn.
  rewrite E2. cbn. rewrite H. by destruct (truthy key).
Qed.

(** The edit succeeds only on such a document. *)
Lemma mutate_annotations_in_place_inv app key app' :
  Aliased.mutate_annotations app key = Ok app' →
  ∃ md id d,
    Aliased.getitem (Aliased.objects app) (Aliased.root app) "metadata" = Ok md ∧
    Aliased.getitem (Aliased.objects app) md "annotations" = Ok (Aliased.RObj id) ∧
    Aliased.objects app !! id = Some (Aliased.ODict d).
Proof.
  unfold Aliased.mutate_annotations.
  destruct (Aliased.getitem _ (Aliased.root app) "metadata") as [md|e] eqn:E1;
    [|done]. cbn.
  destruct (Aliased.getitem _ md "annotations") as [ann|e] eqn:E2; [|done]. cbn.
  unfold Aliased.setitem, Aliased.pop_default.
  destruct ann as [| | | |id]; try (destruct (truthy key); by cbn).
  destruct (Aliased.objects app !! id) as [[xs|d]|] eqn:H;
    try (destruct (truthy key); by cbn).
  intros _. by exists md, id, d.
Qed.

(** The document after the dict at the identity of its annotations was
    replaced by one that agrees with it on every key but [k]. *)
Lemma replace_annotations_in_place app md id d d' k :
  Aliased.getitem (Aliased.objects app) (Aliased.root app) "metadata" = Ok md →
  Aliased.getitem (Aliased.objects app) md "annotations" = Ok (Aliased.RObj id) →
  Aliased.objects app !! id = Some (Aliased.ODict d) →
  (∀ c, key_eqb c k = false → Aliased.entries_get c d' = Aliased.entries_get c d) →
  key_eqb (KStr "metadata") k = false →
  key_eqb (KStr "annotations") k = false →
  let app' := Aliased.Document (<[id := Aliased.ODict d']> (Aliased.objects app))
                (Aliased.root app) in
  (∀ id', id' ≠ id → Aliased.objects app' !! id' = Aliased.objects app !! id') ∧
  Aliased.objects app' !! id = Some (Aliased.ODict d') ∧
  Aliased.walk app' (annotation_path k) = Aliased.entries_get k d' ∧
  (∀ p, Aliased.leaves_by id k app p = false →
        Aliased.walk app' p = Aliased.walk app p).
Proof.
  intros E1 E2 H Same N1 N2 app'. split; [|split; [|split]].
  - intros id' N. apply lookup_insert_ne. done.
  - apply lookup_insert_eq.
  - unfold Aliased.walk, annotation_path, annotations_path. cbn [Aliased.objects
      Aliased.root app'].
    change ([SKey (KStr "metadata"); SKey (KStr "annotations")] ++ [SKey k])
      with ([SKey (KStr "metadata")] ++ [SKey (KStr "annotations")] ++ [SKey k]).
    rewrite walk_from_app, (getitem_frame _ _ _ _ _ _ _ H Same N1 _ E1).
    rewrite walk_from_app, (getitem_frame _ _ _ _ _ _ _ H Same N2 _ E2).
    cbn [Aliased.walk_from]. rewrite lookup_insert_eq.
    by destruct (Aliased.entries_get k d').
  - intros p L. by apply (walk_from_frame _ _ d _ k).
Qed.

Section InPlace.
Context {W : Type} {github : GithubApi W} {codec : Aliased.Codec}.

Lemma modify_application_in_place_writes repo env service branch key
    (st : state W) w f text app app' :
  gh_get_contents repo (manifest_path env service)
    (Some (default_branch repo)) (world st) = (Ok (File f), w) →
  Aliased.bytes_decode (cf_decoded_content f) = Ok text →
  Aliased.yaml_safe_load text = Ok app →
  Aliased.mutate_annotations app key = Ok app' →
  Aliased.modify_application repo env service branch key st
  = update_repo_file repo (cf_path f) (commit_message env service)
      (Aliased.yaml_dump app') branch (cf_sha f)
      (State w (calls st ++ [CGetContents (manifest_path env service)
                               (Some (default_branch repo))]) (log st)).
Proof.
  intros G D L M. unfold Aliased.modify_application, request, lift.
  rewrite bind_run, G. rewrite !bind_run. cbn [as_file].
  unfold Aliased.edit_manifest. rewrite D. cbn. rewrite L. cbn. by rewrite M.
Qed.

(** C3, amended.  Pausing a service whose manifest has the
    [metadata.annotations] mapping.  The text sent as the new content is
    the serialization of a document that has the same root and the same
    objects as the manifest, but for the one mapping at
    [metadata.annotations]: there the key
    [argocd-image-updater.argoproj.io/<service>.ignore-tags] reads ["*"],
    every other key reads what it read, and the keys are those of the
    manifest, in their order, with the new key last when it was not
    among them.  So every path reads what it read in the manifest, unless
    it leaves that mapping by that key; a path does so wherever the mapping
    is shared through an alias. *)
Theorem pause_sets_the_annotation_in_place
    (repo : Repository) (env branch : string) (svc : ContentFile) (st : state W)
    (w : W) (f : ContentFile) (text : string) (app : Aliased.document)
    (md : Aliased.value) (id : nat) (d : list (pykey * Aliased.value)) :
  gh_get_contents repo (manifest_path env (cf_name svc))
    (Some (default_branch repo)) (world st) = (Ok (File f), w) →
  Aliased.bytes_decode (cf_decoded_content f) = Ok text →
  Aliased.yaml_safe_load text = Ok app →
  Aliased.getitem (Aliased.objects app) (Aliased.root app) "metadata" = Ok md →
  Aliased.getitem (Aliased.objects app) md "annotations" = Ok (Aliased.RObj id) →
  Aliased.objects app !! id = Some (Aliased.ODict d) →
  let key := KStr ("argocd-image-updater.argoproj.io/" +:+ cf_name svc
                     +:+ ".ignore-tags") in
  ∃ app' d',
    Aliased.handle_service repo env branch "pause" svc st
    = update_repo_file repo (cf_path f) (commit_message env (cf_name svc))
        (Aliased.yaml_dump app') branch (cf_sha f)
        (State w (calls st ++ [CGetContents (manifest_path env (cf_name svc))
                                 (Some (default_branch repo))]) (log st)) ∧
    Aliased.root app' = Aliased.root app ∧
    (∀ id', id' ≠ id → Aliased.objects app' !! id' = Aliased.objects app !! id') ∧
    Aliased.objects app' !! id = Some (Aliased.ODict d') ∧
    Aliased.entries_get key d' = Some (Aliased.RStr "*") ∧
    (∀ c, key_eqb c key = false →
          Aliased.entries_get c d' = Aliased.entries_get c d) ∧
    map fst d'
    = (if Aliased.entries_get key d is Some _ then map fst d
       else map fst d ++ [key]) ∧
    Aliased.walk app' (annotation_path key) = Some (Aliased.RStr "*") ∧
    (∀ p, Aliased.leaves_by id key app p = false →
          Aliased.walk app' p = Aliased.walk app p).
Proof.
  intros G D L E1 E2 H key.
  pose proof (mutate_annotations_in_place app md id d
                (Some (ignore_tags_key (cf_name svc))) E1 E2 H) as M.
  rewrite truthy_ignore_tags_key in M. cbn [default] in M.
  set (d' := Aliased.entries_set key (Aliased.RStr "*") d).
  assert (∀ c, key_eqb c key = false →
               Aliased.entries_get c d' = Aliased.entries_get c d) as Same.
  { intros c C. unfold d'. by rewrite entries_get_set, C. }
  destruct (replace_annotations_in_place app md id d d' key E1 E2 H Same)
    as (O1 & O2 & P1 & P2); [done..|].
  exists (Aliased.Document (<[id := Aliased.ODict d']> (Aliased.objects app))
            (Aliased.root app)), d'.
  split.
  { unfold Aliased.handle_service. cbn [String.eqb Ascii.eqb Bool.eqb].
    eapply modify_application_in_place_writes; [exact G|exact D|exact L|exact M]. }
  split; [done|]. split; [exact O1|]. split; [exact O2|].
  assert (Aliased.entries_get key d' = Some (Aliased.RStr "*")) as K.
  { unfold d'. by rewrite entries_get_set, key_eqb_refl. }
  split; [exact K|]. split; [exact Same|]. split; [apply entries_keys_set|].
  split; [by rewrite P1|exact P2].
Qed.

End InPlace.

(** X9.  The edit of the [resume] path (no key) changes the document at
    the one mapping at [metadata.annotations], in place: the null key is
    gone from it, every other key reads what it read and keeps its place,
    the root and every other object are the same.  So every path reads
    what it read, unless it leaves that mapping by the null key; a path
    does so wherever the mapping is shared through an alias. *)
Theorem resume_pops_the_null_key_in_place (app app' : Aliased.document) :
  Aliased.mutate_annotations app None = Ok app' →
  ∃ id d d',
    Aliased.walk app annotations_path = Some (Aliased.RObj id) ∧
    Aliased.objects app !! id = Some (Aliased.ODict d) ∧
    Aliased.root app' = Aliased.root app ∧
    (∀ id', id' ≠ id → Aliased.objects app' !! id' = Aliased.objects app !! id') ∧
    Aliased.objects app' !! id = Some (Aliased.ODict d') ∧
    Aliased.entries_get KNone d' = None ∧
    (∀ c, key_eqb c KNone = false →
          Aliased.entries_get c d' = Aliased.entries_get c d) ∧
    map fst d' = filter (fun c => key_eqb KNone c = false) (map fst d) ∧
    (∀ p, Aliased.leaves_by id KNone app p = false →
          Aliased.walk app' p = Aliased.walk app p).
Proof.
  intros M. destruct (mutate_annotations_in_place_inv _ _ _ M) as (md & id & d & E1 & E2 & H).
  rewrite (mutate_annotations_in_place app md id d None E1 E2 H) in M.
  cbn [truthy key_of_arg] in M. injection M as <-.
  set (d' := Aliased.entries_pop KNone d).
  assert (∀ c, key_eqb c KNone = false →
               Aliased.entries_get c d' = Aliased.entries_get c d) as Same.
  { intros c C. unfold d'. by rewrite entries_get_pop, C. }
  destruct (replace_annotations_in_place app md id d d' KNone E1 E2 H Same)
    as (O1 & O2 & _ & P2); [done..|].
  exists id, d, d'. split.
  { unfold Aliased.walk, annotations_path.
    change [SKey (KStr "metadata"); SKey (KStr "annotations")]
      with ([SKey (KStr "metadata")] ++ [SKey (KStr "annotations")]).
    rewrite walk_from_app.
    assert (∀ v name x, Aliased.getitem (Aliased.objects app) v name = Ok x →
              Aliased.walk_from (Aliased.objects app) [SKey (KStr name)] v = Some x)
      as G.
    { intros v name x. destruct v as [| | | |i]; try done.
      cbn [Aliased.getitem Aliased.walk_from].
      destruct (Aliased.objects app !! i) as [[xs|e]|]; try done.
      destruct (Aliased.entries_get (KStr name) e); [|done]. by intros [= ->]. }
    by rewrite (G _ _ _ E1), (G _ _ _ E2). }
  split; [exact H|]. split; [done|]. split; [exact O1|]. split; [exact O2|].
  split; [unfold d'; by rewrite entries_get_pop|].
  split; [exact Same|]. split; [apply entries_keys_pop|exact P2].
Qed.

(** ** Shared documents on the test double *)

(** C3, as stated, fails.  In the manifest [labels] and [annotations] are
    one mapping, anchored and aliased.  Pausing [checkout] goes through,
    and in the document that is written back the ignore-tags key is also
    under [metadata.labels], where the manifest had no such key. *)
Lemma pause_adds_the_key_under_the_aliased_labels :
  let text := "labels: &a {team: shop}, annotations: *a" in
  let key := KStr "argocd-image-updater.argoproj.io/checkout.ignore-tags" in
  let under_labels := [SKey (KStr "metadata"); SKey (KStr "labels"); SKey key] in
  let written :=
    match Aliased.mutate_annotations Aliased.shared_labels
            (Some "argocd-image-updater.argoproj.io/checkout.ignore-tags") with
    | Ok app' => app'
    | Raise _ => Aliased.shared_labels
    end in
  let run :=
    Aliased.handle_service (codec := Aliased.sample_codec) Fake.k8s "staging"
      Sample.branch "pause" (Fake.entry "staging" "checkout")
      (Fake.start (Aliased.checkout_with text)) in
  run.1 = Ok tt ∧
  Fake.commits (world run.2)
  = [(Sample.branch, manifest_path "staging" "checkout", Aliased.show written)] ∧
  Aliased.walk Aliased.shared_labels under_labels = None ∧
  Aliased.walk written under_labels = Some (Aliased.RStr "*") ∧
  Aliased.walk written (annotation_path key) = Some (Aliased.RStr "*").
Proof. repeat split; vm_compute; reflexivity. Qed.

Lemma pause_sets_the_annotation_in_place_witness :
  let text := "labels: &a {team: shop}, annotations: *a" in
  let key := KStr "argocd-image-updater.argoproj.io/checkout.ignore-tags" in
  ∃ app' d',
    Aliased.objects app' !! 2 = Some (Aliased.ODict d') ∧
    map fst d' = [KStr "team"; key] ∧
    Aliased.walk app' (annotation_path key) = Some (Aliased.RStr "*") ∧
    Aliased.walk app' [SKey (KStr "metadata"); SKey (KStr "labels"); SKey (KStr "team")]
    = Some (Aliased.RStr "shop").
Proof.
  intros text key.
  destruct (pause_sets_the_annotation_in_place (codec := Aliased.sample_codec)
              Fake.k8s "staging" Sample.branch (Fake.entry "staging" "checkout")
              (Fake.start (Aliased.checkout_with text))
              (Aliased.checkout_with text)
              (Aliased.file_of "staging" "checkout" text) text
              Aliased.shared_labels (Aliased.RObj 1) 2
              [(KStr "team", Aliased.RStr "shop")])
    as (app' & d' & _ & _ & _ & O & _ & _ & K & A & F).
  - reflexivity.
  - reflexivity.
  - reflexivity.
  - reflexivity.
  - reflexivity.
  - reflexivity.
  - exists app', d'. split; [exact O|]. split; [exact K|]. split; [exact A|].
    rewrite F; reflexivity.
Defined.

Lemma resume_pops_the_null_key_in_place_witness :
  let popped :=
    match Aliased.mutate_annotations Aliased.shared_null_key None with
    | Ok app' => app'
    | Raise _ => Aliased.shared_null_key
    end in
  ∃ d' : list (pykey * Aliased.value),
    Aliased.objects popped !! 2 = Some (Aliased.ODict d') ∧
    Aliased.entries_get KNone d' = None ∧
    Aliased.entries_get (KStr "team") d' = Some (Aliased.RStr "shop").
Proof.
  intros popped.
  destruct (resume_pops_the_null_key_in_place Aliased.shared_null_key popped)
    as (id & d & d' & A & H & _ & _ & O & N & S & _ & _).
  - reflexivity.
  - assert (id = 2) as -> by (vm_compute in A; congruence).
    assert (d = [(KNone, Aliased.RStr "x"); (KStr "team", Aliased.RStr "shop")])
      as -> by (vm_compute in H; congruence).
    exists d'. split; [exact O|]. split; [exact N|]. rewrite S; reflexivity.
Defined.
